(** * Auth façade of the admin SDK: token verification, tenant isolation,
      batch lookup / delete aggregation, provider-config dispatch and
      tenant-options validation.

    The development follows the two TypeScript sources:
    - the auth module ([BaseAuthImpl], [TenantAwareAuthImpl]);
    - [src/auth/tenant-internal.ts] ([TenantUtils], [validateTestPhoneNumbers]).

    Promises are modelled as computations over the log of requests sent to
    the account directory; a rejected promise and a synchronous [throw] are
    both the [Rejected] outcome. *)

From Stdlib Require Import String Ascii List ZArith Bool Lia.
Import ListNotations.
Open Scope string_scope.
Open Scope Z_scope.

Set Warnings "-register-all".

(* ===================================================================== *)
(** ** JavaScript values *)
(* ===================================================================== *)

Module Js.

(** Values that cross the untyped boundary ([any], option bags, server
    JSON).  Numbers carry an integer payload; [NaN] is kept apart because
    [validator.isNumber] singles it out.  An object is the list of its own
    enumerable properties in enumeration order. *)
Inductive value : Type :=
| Undefined
| Null
| Boolean (b : bool)
| Num (n : Z)
| NaN
| Str (s : string)
| Arr (items : list value)
| Obj (props : list (string * value)).

(** [typeof v === 'undefined'] *)
Definition is_undefined (v : value) : bool :=
  match v with Undefined => true | _ => false end.

(** [v === null] *)
Definition is_null (v : value) : bool :=
  match v with Null => true | _ => false end.

Fixpoint lookup (key : string) (props : list (string * value)) : value :=
  match props with
  | [] => Undefined
  | (k, v) :: rest => if String.eqb k key then v else lookup key rest
  end.

(** Property read [v.key] for a key that [Object.prototype] does not
    define: the own property when [v] is an object, [undefined] otherwise. *)
Definition get (v : value) (key : string) : value :=
  match v with
  | Obj props => lookup key props
  | _ => Undefined
  end.

(** [Object.keys(v)] / the keys visited by [for (const key in v)]. *)
Definition keys (v : value) : list string :=
  match v with
  | Obj props => map fst props
  | _ => []
  end.

(** Property names every plain object inherits from [Object.prototype]. *)
Definition object_prototype_names : list string :=
  [ "constructor"; "hasOwnProperty"; "isPrototypeOf"; "propertyIsEnumerable";
    "toLocaleString"; "toString"; "valueOf"; "__proto__";
    "__defineGetter__"; "__defineSetter__"; "__lookupGetter__";
    "__lookupSetter__" ].

(** The text [s] between double quotes, as template literals print it. *)
Definition quoted (s : string) : string :=
  String (ascii_of_nat 34) s ++ String (ascii_of_nat 34) EmptyString.

Definition mem (key : string) (l : list string) : bool :=
  existsb (String.eqb key) l.

(** The [in] operator on an object literal with own keys [own]:
    [key in o] walks the prototype chain, so inherited names count. *)
Definition in_literal (key : string) (own : list string) : bool :=
  mem key own || mem key object_prototype_names.

End Js.

(* ===================================================================== *)
(** ** utils/validator *)
(* ===================================================================== *)

Module validator.
Import Js.

(** Modelled from the spec: the module [utils/validator] is not among the
    sources; its predicates follow the words the spec uses for the guards
    built from them.  [isArray]: the value is "array-shaped". *)
Definition isArray (v : value) : bool :=
  match v with Arr _ => true | _ => false end.

(** Modelled from the spec: [isObject], an object in the sense of
    [typeof] that is not an array ("non-object" input is turned down). *)
Definition isObject (v : value) : bool :=
  match v with Obj _ | Null => true | _ => false end.

(** Modelled from the spec: [isNonNullObject], a "non-null object". *)
Definition isNonNullObject (v : value) : bool :=
  isObject v && negb (is_null v).

(** Modelled from the spec: [isNumber], the value is "numeric": a number
    other than [NaN]. *)
Definition isNumber (v : value) : bool :=
  match v with Num _ => true | _ => false end.

(** Modelled from the spec: [isString], the value is a string. *)
Definition isString (v : value) : bool :=
  match v with Str _ => true | _ => false end.

(** Modelled from the spec: [isNonEmptyString], a "non-empty string". *)
Definition isNonEmptyString (v : value) : bool :=
  match v with Str s => negb (String.eqb s EmptyString) | _ => false end.

(** Modelled from the spec: [isNonEmptyArray], an array with at least one
    entry (the error list of a response is "empty" otherwise). *)
Definition isNonEmptyArray {A : Type} (v : option (list A)) : bool :=
  match v with Some (_ :: _) => true | _ => false end.

End validator.

(* ===================================================================== *)
(** ** Errors ([utils/error]) *)
(* ===================================================================== *)

(** The [AuthClientErrorCode] entries the two sources refer to, and
    [OTHER] for codes that only collaborators raise. *)
Inductive AuthClientErrorCode : Type :=
| INVALID_ARGUMENT
| INTERNAL_ERROR
| INVALID_ID_TOKEN
| INVALID_SESSION_COOKIE_DURATION
| MISMATCHING_TENANT_ID
| ID_TOKEN_REVOKED
| SESSION_COOKIE_REVOKED
| INVALID_PROVIDER_ID
| INVALID_CONFIG
| USER_NOT_DISABLED
| MAXIMUM_TEST_PHONE_NUMBER_EXCEEDED
| INVALID_TESTING_PHONE_NUMBER
| OTHER (code : string).

(** [new FirebaseAuthError(info, message?)]: the error info and the message
    argument as passed ([None] when the call site gives none). *)
Record FirebaseAuthError : Type := mkFirebaseAuthError {
  code : AuthClientErrorCode;
  message : option string
}.

(** Outcome of a promise (or of a call that may throw). *)
Inductive Result (A : Type) : Type :=
| Fulfilled (a : A)
| Rejected (e : FirebaseAuthError).

Arguments Fulfilled {A} a.
Arguments Rejected {A} e.

Definition throw {A : Type} (c : AuthClientErrorCode) (msg : option string) : Result A :=
  Rejected (mkFirebaseAuthError c msg).

Definition and_then {A B : Type} (r : Result A) (k : A -> Result B) : Result B :=
  match r with
  | Fulfilled a => k a
  | Rejected e => Rejected e
  end.

(** [xs.map(f)] where the callback may throw: the first throw aborts. *)
Fixpoint map_or_throw {A B : Type} (f : A -> Result B) (xs : list A) : Result (list B) :=
  match xs with
  | [] => Fulfilled []
  | x :: rest =>
      and_then (f x) (fun y =>
      and_then (map_or_throw f rest) (fun ys => Fulfilled (y :: ys)))
  end.

(** [for (const x of xs) { check(x) }] with a throwing body. *)
Fixpoint for_each {A : Type} (check : A -> Result unit) (xs : list A) : Result unit :=
  match xs with
  | [] => Fulfilled tt
  | x :: rest => and_then (check x) (fun _ => for_each check rest)
  end.

(* ===================================================================== *)
(** ** Data model *)
(* ===================================================================== *)

(** [UserIdentifier]: the closed union of [identifier.ts]; the type guards
    [isUidIdentifier] ... [isProviderIdentifier] are the constructors. *)
Inductive UserIdentifier : Type :=
| UidIdentifier (uid : string)
| EmailIdentifier (email : string)
| PhoneIdentifier (phoneNumber : string)
| ProviderIdentifier (providerId : string) (providerUid : string).

(** One entry of [UserRecord.providerData]. *)
Record UserInfo : Type := mkUserInfo {
  info_providerId : string;
  info_uid : string
}.

(** The fields of the public [UserRecord] the auth module reads. *)
Record UserRecord : Type := mkUserRecord {
  uid : string;
  email : option string;
  phoneNumber : option string;
  providerData : list UserInfo;
  tokensValidAfterTime : option string
}.

(** The [firebase] claim of a decoded token. *)
Record FirebaseClaims : Type := mkFirebaseClaims {
  tenant : option string;
  sign_in_provider : string
}.

Record DecodedIdToken : Type := mkDecodedIdToken {
  sub : string;
  auth_time : Z;
  iat : Z;
  exp : Z;
  firebase : FirebaseClaims;
  other_claims : list (string * Js.value)
}.

Record GetUsersResult : Type := mkGetUsersResult {
  users : list UserRecord;
  notFound : list UserIdentifier
}.

Record FirebaseArrayIndexError : Type := mkFirebaseArrayIndexError {
  index : Z;
  error : FirebaseAuthError
}.

Record DeleteUsersResult : Type := mkDeleteUsersResult {
  failureCount : Z;
  successCount : Z;
  errors : list FirebaseArrayIndexError
}.

(** Server responses, as far as the auth module looks into them. *)
Record GetAccountInfoResponse : Type := mkGetAccountInfoResponse {
  account_users : list Js.value
}.

Record GetAccountInfoByIdentifiersResponse : Type := mkGetAccountInfoByIdentifiersResponse {
  batch_users : option (list Js.value)
}.

Record BatchDeleteErrorInfo : Type := mkBatchDeleteErrorInfo {
  err_index : option Z;
  err_message : option string
}.

Record BatchDeleteAccountsResponse : Type := mkBatchDeleteAccountsResponse {
  response_errors : option (list BatchDeleteErrorInfo)
}.

(** A provider configuration built from a server response; the two classes
    of [auth-config-internal] are kept as tags around the response. *)
Inductive AuthProviderConfig : Type :=
| OIDCConfig (response : Js.value)
| SAMLConfig (response : Js.value).

(** An argument declared [T[]]: types are erased at run time, so a caller
    may pass something that is not an array. *)
Inductive ArrayArg (A : Type) : Type :=
| an_array (items : list A)
| not_an_array.

Arguments an_array {A} items.
Arguments not_an_array {A}.

(* ===================================================================== *)
(** ** Promises over the account directory *)
(* ===================================================================== *)

(** A request sent to the account directory (the backend RPCs). *)
Inductive DirectoryCall : Type :=
| GetAccountByUid (uid : string)
| GetAccountsByIdentifiers (identifiers : list UserIdentifier)
| DeleteAccounts (uids : list string) (force : bool)
| CreateSessionCookie (idToken : string) (expiresIn : Js.value)
| UpdateOidcConfig (providerId : string) (config : Js.value)
| UpdateSamlConfig (providerId : string) (config : Js.value)
| CreateOidcConfig (config : Js.value)
| CreateSamlConfig (config : Js.value).

(** The requests issued so far, oldest first. *)
Definition Trace : Type := list DirectoryCall.

(** A promise: run from the current trace, it settles and leaves the trace
    extended by the requests it issued. *)
Definition Promise (A : Type) : Type := Trace -> Result A * Trace.

Definition resolve {A : Type} (a : A) : Promise A :=
  fun t => (Fulfilled a, t).

Definition reject {A : Type} (c : AuthClientErrorCode) (msg : option string) : Promise A :=
  fun t => (throw c msg, t).

(** A computation without directory traffic, lifted to a promise. *)
Definition settle {A : Type} (r : Result A) : Promise A :=
  fun t => (r, t).

(** [p.then(k)] *)
Definition then_ {A B : Type} (p : Promise A) (k : A -> Promise B) : Promise B :=
  fun t =>
    match p t with
    | (Fulfilled a, t') => k a t'
    | (Rejected e, t') => (Rejected e, t')
    end.

Notation "x <- p ;; k" := (then_ p (fun x => k))
  (at level 61, p at next level, right associativity).

Module FirebaseTokenVerifier.

(** [token-verifier-internal]: signature and claim checks are the
    verifier's business; it does not talk to the account directory. *)
Record t : Type := mk {
  verifyJWT : string -> Result DecodedIdToken
}.

End FirebaseTokenVerifier.

Module AbstractAuthRequestHandler.

(** The methods of the request handler ([auth-api-request]) the modelled
    part of the auth module calls. *)
Record t : Type := mk {
  getAccountInfoByUid : string -> Promise GetAccountInfoResponse;
  getAccountInfoByIdentifiers : list UserIdentifier -> Promise GetAccountInfoByIdentifiersResponse;
  deleteAccounts : list string -> bool -> Promise BatchDeleteAccountsResponse;
  createSessionCookie : string -> Js.value -> Promise string;
  updateOAuthIdpConfig : string -> Js.value -> Promise Js.value;
  updateInboundSamlConfig : string -> Js.value -> Promise Js.value;
  createOAuthIdpConfig : Js.value -> Promise Js.value;
  createInboundSamlConfig : Js.value -> Promise Js.value
}.

End AbstractAuthRequestHandler.

(** Modelled from the spec: [OIDCConfig.isProviderId] and
    [SAMLConfig.isProviderId] live in [auth-config-internal], which is not
    among the sources; the spec classifies a provider id by its prefix,
    [oidc.] or [saml.]; any other shape is invalid. *)
Definition OIDCConfig_isProviderId (providerId : Js.value) : bool :=
  match providerId with
  | Js.Str s => String.prefix "oidc." s
  | _ => false
  end.

(** Modelled from the spec: [SAMLConfig.isProviderId], prefix [saml.]. *)
Definition SAMLConfig_isProviderId (providerId : Js.value) : bool :=
  match providerId with
  | Js.Str s => String.prefix "saml." s
  | _ => false
  end.

(* ===================================================================== *)
(** ** BaseAuthImpl *)
(* ===================================================================== *)

Module BaseAuthImpl.
Import Js.

(** The instance fields the modelled methods use. *)
Record t : Type := mk {
  authRequestHandler : AbstractAuthRequestHandler.t;
  idTokenVerifier : FirebaseTokenVerifier.t;
  sessionCookieVerifier : FirebaseTokenVerifier.t
}.

Section Methods.

(** [new UserRecord(response)] from [user-record], applied to a server
    user object (or to [undefined], for [users[0]] of an empty list); the
    constructor may throw. *)
Variable UserRecord_new : value -> Result UserRecord.

(** [new Date(s).getTime()]; [None] stands for [NaN]. *)
Variable Date_getTime : string -> option Z.

Variable this : t.

(** [xs[0]] *)
Definition first_or_undefined (xs : list value) : value :=
  match xs with
  | x :: _ => x
  | [] => Undefined
  end.

(** Truthiness of an optional string: [undefined] and [''] are falsy. *)
Definition truthy_string (s : option string) : bool :=
  match s with
  | Some x => negb (String.eqb x EmptyString)
  | None => false
  end.

(** [a < b] on numbers, where [b] may be [NaN]. *)
Definition number_lt (a : Z) (b : option Z) : bool :=
  match b with
  | Some v => a <? v
  | None => false
  end.

Definition getUser (uid : string) : Promise UserRecord :=
  response <- AbstractAuthRequestHandler.getAccountInfoByUid (authRequestHandler this) uid ;;
  settle (UserRecord_new (first_or_undefined (account_users response))).

Definition verifyDecodedJWTNotRevoked
    (decodedIdToken : DecodedIdToken) (revocationErrorInfo : AuthClientErrorCode)
    : Promise DecodedIdToken :=
  user <- getUser (sub decodedIdToken) ;;
  if truthy_string (tokensValidAfterTime user) then
    let authTimeUtc := auth_time decodedIdToken * 1000 in
    let validSinceUtc :=
      match tokensValidAfterTime user with
      | Some s => Date_getTime s
      | None => None
      end in
    if number_lt authTimeUtc validSinceUtc then
      reject revocationErrorInfo None
    else resolve decodedIdToken
  else resolve decodedIdToken.

Definition verifyIdToken (idToken : string) (checkRevoked : bool) : Promise DecodedIdToken :=
  decodedIdToken <- settle (FirebaseTokenVerifier.verifyJWT (idTokenVerifier this) idToken) ;;
  if negb checkRevoked then resolve decodedIdToken
  else verifyDecodedJWTNotRevoked decodedIdToken ID_TOKEN_REVOKED.

Definition verifySessionCookie (sessionCookie : string) (checkRevoked : bool)
    : Promise DecodedIdToken :=
  decodedIdToken <- settle (FirebaseTokenVerifier.verifyJWT (sessionCookieVerifier this) sessionCookie) ;;
  if negb checkRevoked then resolve decodedIdToken
  else verifyDecodedJWTNotRevoked decodedIdToken SESSION_COOKIE_REVOKED.

(** The callback of [userRecords.find] inside [isUserFound]. *)
Definition identifies (id : UserIdentifier) (userRecord : UserRecord) : bool :=
  match id with
  | UidIdentifier u => String.eqb u (uid userRecord)
  | EmailIdentifier e =>
      match email userRecord with
      | Some e' => String.eqb e e'
      | None => false
      end
  | PhoneIdentifier p =>
      match phoneNumber userRecord with
      | Some p' => String.eqb p p'
      | None => false
      end
  | ProviderIdentifier pid puid =>
      let matchingUserInfo :=
        find (fun userInfo => String.eqb pid (info_providerId userInfo))
             (providerData userRecord) in
      match matchingUserInfo with
      | Some userInfo => String.eqb puid (info_uid userInfo)
      | None => false
      end
  end.

Definition isUserFound (id : UserIdentifier) (userRecords : list UserRecord) : bool :=
  existsb (identifies id) userRecords.

Definition getUsers (identifiers : ArrayArg UserIdentifier) : Promise GetUsersResult :=
  match identifiers with
  | not_an_array =>
      reject INVALID_ARGUMENT (Some "`identifiers` parameter must be an array")
  | an_array ids =>
      response <- AbstractAuthRequestHandler.getAccountInfoByIdentifiers
                    (authRequestHandler this) ids ;;
      users <- settle (match batch_users response with
                       | Some us => map_or_throw UserRecord_new us
                       | None => Fulfilled []
                       end) ;;
      let notFound := filter (fun id => negb (isUserFound id users)) ids in
      resolve (mkGetUsersResult users notFound)
  end.

(** [errMsgToError] of [deleteUsers], for the entry [batchDeleteErrorInfo]. *)
Definition errMsgToError (batchDeleteErrorInfo : BatchDeleteErrorInfo) (msg : option string)
    : FirebaseAuthError :=
  let code :=
    match msg with
    | Some m =>
        if negb (String.eqb m EmptyString) && String.prefix "NOT_DISABLED" m
        then USER_NOT_DISABLED else INTERNAL_ERROR
    | None => INTERNAL_ERROR
    end in
  mkFirebaseAuthError code (err_message batchDeleteErrorInfo).

Definition toIndexError (batchDeleteErrorInfo : BatchDeleteErrorInfo)
    : Result FirebaseArrayIndexError :=
  match err_index batchDeleteErrorInfo with
  | None => throw INTERNAL_ERROR (Some "Corrupt BatchDeleteAccountsResponse detected")
  | Some i =>
      Fulfilled (mkFirebaseArrayIndexError i
                   (errMsgToError batchDeleteErrorInfo (err_message batchDeleteErrorInfo)))
  end.

Definition deleteUsers (uids : ArrayArg string) : Promise DeleteUsersResult :=
  match uids with
  | not_an_array =>
      reject INVALID_ARGUMENT (Some "`uids` parameter must be an array")
  | an_array uids =>
      batchDeleteAccountsResponse <-
        AbstractAuthRequestHandler.deleteAccounts (authRequestHandler this) uids true ;;
      let result := mkDeleteUsersResult 0 (Z.of_nat (length uids)) [] in
      if negb (validator.isNonEmptyArray (response_errors batchDeleteAccountsResponse))
      then resolve result
      else
        let errs :=
          match response_errors batchDeleteAccountsResponse with
          | Some es => es
          | None => []
          end in
        mapped <- settle (map_or_throw toIndexError errs) ;;
        resolve (mkDeleteUsersResult
                   (Z.of_nat (length errs))
                   (Z.of_nat (length uids) - Z.of_nat (length errs))
                   mapped)
  end.

Definition createSessionCookie (idToken : string) (sessionCookieOptions : value)
    : Promise string :=
  if negb (validator.isNonNullObject sessionCookieOptions) ||
     negb (validator.isNumber (get sessionCookieOptions "expiresIn"))
  then reject INVALID_SESSION_COOKIE_DURATION None
  else AbstractAuthRequestHandler.createSessionCookie (authRequestHandler this)
         idToken (get sessionCookieOptions "expiresIn").

Definition updateProviderConfig (providerId : string) (updatedConfig : value)
    : Promise AuthProviderConfig :=
  if negb (validator.isNonNullObject updatedConfig) then
    reject INVALID_CONFIG
      (Some ("Request is missing " ++ quoted "UpdateAuthProviderRequest" ++ " configuration."))
  else if OIDCConfig_isProviderId (Str providerId) then
    response <- AbstractAuthRequestHandler.updateOAuthIdpConfig
                  (authRequestHandler this) providerId updatedConfig ;;
    resolve (OIDCConfig response)
  else if SAMLConfig_isProviderId (Str providerId) then
    response <- AbstractAuthRequestHandler.updateInboundSamlConfig
                  (authRequestHandler this) providerId updatedConfig ;;
    resolve (SAMLConfig response)
  else reject INVALID_PROVIDER_ID None.

Definition createProviderConfig (config : value) : Promise AuthProviderConfig :=
  if negb (validator.isNonNullObject config) then
    reject INVALID_CONFIG
      (Some ("Request is missing " ++ quoted "AuthProviderConfig" ++ " configuration."))
  else if OIDCConfig_isProviderId (get config "providerId") then
    response <- AbstractAuthRequestHandler.createOAuthIdpConfig
                  (authRequestHandler this) config ;;
    resolve (OIDCConfig response)
  else if SAMLConfig_isProviderId (get config "providerId") then
    response <- AbstractAuthRequestHandler.createInboundSamlConfig
                  (authRequestHandler this) config ;;
    resolve (SAMLConfig response)
  else reject INVALID_PROVIDER_ID None.

End Methods.

End BaseAuthImpl.

(* ===================================================================== *)
(** ** TenantAwareAuthImpl *)
(* ===================================================================== *)

Module TenantAwareAuthImpl.
Import Js.

(** A tenant-bound instance: the inherited part and the tenant id. *)
Record t : Type := mk {
  super : BaseAuthImpl.t;
  tenantId : string
}.

Section Methods.

Variable UserRecord_new : value -> Result UserRecord.
Variable Date_getTime : string -> option Z.
Variable this : t.

(** [decodedClaims.firebase.tenant !== this.tenantId] *)
Definition tenant_differs (decodedClaims : DecodedIdToken) : bool :=
  match tenant (firebase decodedClaims) with
  | Some x => negb (String.eqb x (tenantId this))
  | None => true
  end.

Definition verifyIdToken (idToken : string) (checkRevoked : bool) : Promise DecodedIdToken :=
  decodedClaims <- BaseAuthImpl.verifyIdToken UserRecord_new Date_getTime (super this)
                     idToken checkRevoked ;;
  if tenant_differs decodedClaims then reject MISMATCHING_TENANT_ID None
  else resolve decodedClaims.

Definition createSessionCookie (idToken : string) (sessionCookieOptions : value)
    : Promise string :=
  if negb (validator.isNonEmptyString (Str idToken)) then
    reject INVALID_ID_TOKEN None
  else if negb (validator.isNonNullObject sessionCookieOptions) ||
          negb (validator.isNumber (get sessionCookieOptions "expiresIn"))
  then reject INVALID_SESSION_COOKIE_DURATION None
  else
    _ <- verifyIdToken idToken false ;;
    BaseAuthImpl.createSessionCookie (super this) idToken sessionCookieOptions.

Definition verifySessionCookie (sessionCookie : string) (checkRevoked : bool)
    : Promise DecodedIdToken :=
  decodedClaims <- BaseAuthImpl.verifySessionCookie UserRecord_new Date_getTime (super this)
                     sessionCookie checkRevoked ;;
  if tenant_differs decodedClaims then reject MISMATCHING_TENANT_ID None
  else resolve decodedClaims.

End Methods.

End TenantAwareAuthImpl.

(* ===================================================================== *)
(** ** The request handler in front of the directory *)
(* ===================================================================== *)

(** The account directory: what the backend answers to each request. *)
Record Directory : Type := mkDirectory {
  answer_getAccountByUid : string -> Result GetAccountInfoResponse;
  answer_getAccountsByIdentifiers :
    list UserIdentifier -> Result GetAccountInfoByIdentifiersResponse;
  answer_deleteAccounts : list string -> bool -> Result BatchDeleteAccountsResponse;
  answer_createSessionCookie : string -> Js.value -> Result string;
  answer_updateConfig : string -> Js.value -> Result Js.value;
  answer_createConfig : Js.value -> Result Js.value
}.

(** One round trip: the request is logged, the directory's answer settles
    the promise. *)
Definition rpc {A : Type} (call : DirectoryCall) (answer : Result A) : Promise A :=
  fun t => (answer, (t ++ [call])%list).

(** Modelled from the spec: at most 100 identifiers in a batch lookup. *)
Definition MAX_GET_ACCOUNTS_BATCH_SIZE : nat := 100.

(** Modelled from the spec: at most 1000 uids in a batch delete. *)
Definition MAX_DELETE_ACCOUNTS_BATCH_SIZE : nat := 1000.

(** Modelled from the spec: the request handler ([auth-api-request]) is not
    among the sources.  The spec puts the size limits in front of the
    network: batch lookup fails with [INVALID_ARGUMENT] when the identifier
    list is longer than 100; batch delete requires
    [0 < len(requestedUids) <= 1000], else [INVALID_ARGUMENT]; both before
    any request is sent.  Every other method is one round trip. *)
Definition AuthRequestHandler (d : Directory) : AbstractAuthRequestHandler.t :=
  AbstractAuthRequestHandler.mk
    (fun uid => rpc (GetAccountByUid uid) (answer_getAccountByUid d uid))
    (fun identifiers =>
       if (MAX_GET_ACCOUNTS_BATCH_SIZE <? List.length identifiers)%nat
       then reject INVALID_ARGUMENT None
       else rpc (GetAccountsByIdentifiers identifiers)
                (answer_getAccountsByIdentifiers d identifiers))
    (fun uids force =>
       if (List.length uids =? 0)%nat
          || (MAX_DELETE_ACCOUNTS_BATCH_SIZE <? List.length uids)%nat
       then reject INVALID_ARGUMENT None
       else rpc (DeleteAccounts uids force) (answer_deleteAccounts d uids force))
    (fun idToken expiresIn =>
       rpc (CreateSessionCookie idToken expiresIn)
           (answer_createSessionCookie d idToken expiresIn))
    (fun providerId config =>
       rpc (UpdateOidcConfig providerId config) (answer_updateConfig d providerId config))
    (fun providerId config =>
       rpc (UpdateSamlConfig providerId config) (answer_updateConfig d providerId config))
    (fun config => rpc (CreateOidcConfig config) (answer_createConfig d config))
    (fun config => rpc (CreateSamlConfig config) (answer_createConfig d config)).

(* ===================================================================== *)
(** ** tenant-internal.ts *)
(* ===================================================================== *)

(** A maximum of 10 test phone number / code pairs can be configured. *)
Definition MAXIMUM_TEST_PHONE_NUMBERS : nat := 10.

(** [/^[\d]{6}$/.test(s)] *)
Definition is_digit (c : ascii) : bool :=
  ((48 <=? nat_of_ascii c) && (nat_of_ascii c <=? 57))%nat.

Definition six_digits (s : string) : bool :=
  (String.length s =? 6)%nat && forallb is_digit (list_ascii_of_string s).

Section TestPhoneNumbers.
Import Js.

(** [validator.isPhoneNumber], from the absent [utils/validator]. *)
Variable isPhoneNumber : string -> bool.

(** Conversion of a value inside a template literal. *)
Variable template : value -> string.

Definition validateTestPhoneNumber (testPhoneNumbers : value) (phoneNumber : string)
    : Result unit :=
  if negb (isPhoneNumber phoneNumber) then
    throw INVALID_TESTING_PHONE_NUMBER
      (Some (quoted phoneNumber ++ " is not a valid E.164 standard compliant phone number."))
  else
    let code := get testPhoneNumbers phoneNumber in
    if negb (validator.isString code) ||
       negb (match code with Str s => six_digits s | _ => false end)
    then
      throw INVALID_TESTING_PHONE_NUMBER
        (Some (quoted (template code) ++ " is not a valid 6 digit code string."))
    else Fulfilled tt.

Definition validateTestPhoneNumbers (testPhoneNumbers : value) : Result unit :=
  if negb (validator.isObject testPhoneNumbers) then
    throw INVALID_ARGUMENT
      (Some (quoted "testPhoneNumbers" ++ " must be a map of phone number / code pairs."))
  else if is_null testPhoneNumbers then
    (* [Object.keys(null)] *)
    throw (OTHER "TypeError") None
  else if (MAXIMUM_TEST_PHONE_NUMBERS <? List.length (keys testPhoneNumbers))%nat then
    throw MAXIMUM_TEST_PHONE_NUMBER_EXCEEDED None
  else for_each (validateTestPhoneNumber testPhoneNumbers) (keys testPhoneNumbers).

End TestPhoneNumbers.

Module TenantUtils.
Import Js.

Section Validate.

Variable isPhoneNumber : string -> bool.
Variable template : value -> string.

(** [EmailSignInConfig.buildServerRequest] and
    [MultiFactorAuthConfig.buildServerRequest] of [auth-config-internal]:
    each returns the server request or throws. *)
Variable EmailSignInConfig_buildServerRequest : value -> Result value.
Variable MultiFactorAuthConfig_buildServerRequest : value -> Result value.

(** The own keys of the literal [validKeys]. *)
Definition validKeys : list string :=
  [ "displayName"; "emailSignInConfig"; "multiFactorConfig"; "testPhoneNumbers" ].

Definition label (createRequest : bool) : string :=
  if createRequest then "CreateTenantRequest" else "UpdateTenantRequest".

(** Body of the loop over the top level attributes. *)
Definition checkKey (createRequest : bool) (key : string) : Result unit :=
  if negb (in_literal key validKeys) then
    throw INVALID_ARGUMENT
      (Some (quoted key ++ " is not a valid " ++ label createRequest ++ " parameter."))
  else Fulfilled tt.

Definition validate (request : value) (createRequest : bool) : Result unit :=
  if negb (validator.isNonNullObject request) then
    throw INVALID_ARGUMENT
      (Some (quoted (label createRequest) ++ " must be a valid non-null object."))
  else
    and_then (for_each (checkKey createRequest) (keys request)) (fun _ =>
    and_then
      (if negb (is_undefined (get request "displayName")) &&
          negb (validator.isNonEmptyString (get request "displayName"))
       then throw INVALID_ARGUMENT
              (Some (quoted (label createRequest ++ ".displayName")
                     ++ " must be a valid non-empty string."))
       else Fulfilled tt) (fun _ =>
    and_then
      (if negb (is_undefined (get request "emailSignInConfig"))
       then and_then (EmailSignInConfig_buildServerRequest (get request "emailSignInConfig"))
                     (fun _ => Fulfilled tt)
       else Fulfilled tt) (fun _ =>
    and_then
      (if negb (is_undefined (get request "testPhoneNumbers")) &&
          negb (is_null (get request "testPhoneNumbers"))
       then validateTestPhoneNumbers isPhoneNumber template (get request "testPhoneNumbers")
       else if is_null (get request "testPhoneNumbers") && createRequest
       then throw INVALID_ARGUMENT
              (Some (quoted (label createRequest ++ ".testPhoneNumbers")
                     ++ " must be a non-null object."))
       else Fulfilled tt) (fun _ =>
    if negb (is_undefined (get request "multiFactorConfig"))
    then and_then (MultiFactorAuthConfig_buildServerRequest (get request "multiFactorConfig"))
                  (fun _ => Fulfilled tt)
    else Fulfilled tt)))).

End Validate.

End TenantUtils.

(** The whitelist of the specification for tenant options: the four
    supported top level keys, and nothing else. *)
Definition whitelisted (key : string) : bool :=
  Js.mem key [ "displayName"; "emailSignInConfig"; "multiFactorConfig"; "testPhoneNumbers" ].

(** Whether the text [needle] occurs in [s]. *)
Fixpoint occurs_in (needle s : string) : bool :=
  String.prefix needle s ||
  match s with
  | EmptyString => false
  | String _ rest => occurs_in needle rest
  end.

(** An error message names [key] when it mentions it between quotes. *)
Definition names_key (e : FirebaseAuthError) (key : string) : bool :=
  match message e with
  | Some m => occurs_in (Js.quoted key) m
  | None => false
  end.

(* ===================================================================== *)
(** ** Specification-side notions *)
(* ===================================================================== *)

(** The two verification paths. *)
Inductive TokenKind : Type := IdToken | SessionCookie.

Definition revocationError (kind : TokenKind) : AuthClientErrorCode :=
  match kind with
  | IdToken => ID_TOKEN_REVOKED
  | SessionCookie => SESSION_COOKIE_REVOKED
  end.

Definition verifierOf (this : BaseAuthImpl.t) (kind : TokenKind) : FirebaseTokenVerifier.t :=
  match kind with
  | IdToken => BaseAuthImpl.idTokenVerifier this
  | SessionCookie => BaseAuthImpl.sessionCookieVerifier this
  end.

(** The public verification method of the base class for each path. *)
Definition baseVerify (UserRecord_new : Js.value -> Result UserRecord)
    (Date_getTime : string -> option Z) (this : BaseAuthImpl.t) (kind : TokenKind)
    : string -> bool -> Promise DecodedIdToken :=
  match kind with
  | IdToken => BaseAuthImpl.verifyIdToken UserRecord_new Date_getTime this
  | SessionCookie => BaseAuthImpl.verifySessionCookie UserRecord_new Date_getTime this
  end.

(** The overriding method of the tenant-aware class for each path. *)
Definition tenantVerify (UserRecord_new : Js.value -> Result UserRecord)
    (Date_getTime : string -> option Z) (this : TenantAwareAuthImpl.t) (kind : TokenKind)
    : string -> bool -> Promise DecodedIdToken :=
  match kind with
  | IdToken => TenantAwareAuthImpl.verifyIdToken UserRecord_new Date_getTime this
  | SessionCookie => TenantAwareAuthImpl.verifySessionCookie UserRecord_new Date_getTime this
  end.

(** The token predates the account's cutoff: the record has a
    [tokensValidAfterTime] and [auth_time * 1000] is strictly below its
    value in milliseconds. *)
Definition predatesCutoff (Date_getTime : string -> option Z)
    (decoded : DecodedIdToken) (user : UserRecord) : Prop :=
  exists s v,
    tokensValidAfterTime user = Some s /\ Date_getTime s = Some v /\
    auth_time decoded * 1000 < v.

(** Matching as the specification words it: a provider identifier matches
    an account that has some provider entry equal in both fields. *)
Definition specMatches (id : UserIdentifier) (account : UserRecord) : bool :=
  match id with
  | UidIdentifier u => String.eqb u (uid account)
  | EmailIdentifier e =>
      match email account with Some e' => String.eqb e e' | None => false end
  | PhoneIdentifier p =>
      match phoneNumber account with Some p' => String.eqb p p' | None => false end
  | ProviderIdentifier pid puid =>
      existsb (fun i => String.eqb pid (info_providerId i) && String.eqb puid (info_uid i))
              (providerData account)
  end.

(** Matching as the code decides it: for a provider identifier, the first
    provider entry of the account with that provider id is the one whose
    uid is compared. *)
Inductive Matches : UserIdentifier -> UserRecord -> Prop :=
| matches_uid : forall account,
    Matches (UidIdentifier (uid account)) account
| matches_email : forall e account,
    email account = Some e -> Matches (EmailIdentifier e) account
| matches_phone : forall p account,
    phoneNumber account = Some p -> Matches (PhoneIdentifier p) account
| matches_provider : forall account before entry after,
    providerData account = (before ++ entry :: after)%list ->
    (forall i, In i before -> info_providerId i <> info_providerId entry) ->
    Matches (ProviderIdentifier (info_providerId entry) (info_uid entry)) account.

(** The error list a batch-delete response carries ([[]] when absent). *)
Definition errorsOf (response : BatchDeleteAccountsResponse) : list BatchDeleteErrorInfo :=
  match response_errors response with
  | Some es => es
  | None => []
  end.

(** The message of a directory error starts with [NOT_DISABLED]. *)
Definition startsWithNotDisabled (msg : option string) : bool :=
  match msg with
  | Some m => String.prefix "NOT_DISABLED" m
  | None => false
  end.

(** How one directory error appears in the aggregate. *)
Definition mapsTo (info : BatchDeleteErrorInfo) (e : FirebaseArrayIndexError) : Prop :=
  err_index info = Some (index e) /\
  message (error e) = err_message info /\
  code (error e) =
    (if startsWithNotDisabled (err_message info) then USER_NOT_DISABLED else INTERNAL_ERROR).

(* ===================================================================== *)
(** ** Concrete collaborators, used to run the model *)
(* ===================================================================== *)

Module Example.
Import Js.

Definition text (v : value) : option string :=
  match v with Str s => Some s | _ => None end.

Definition link (v : value) : UserInfo :=
  mkUserInfo (match text (get v "providerId") with Some s => s | None => EmptyString end)
             (match text (get v "rawId") with Some s => s | None => EmptyString end).

(** A user-record constructor for the examples: it reads the fields of a
    server user object and throws when [localId] is missing. *)
Definition UserRecord_new (v : value) : Result UserRecord :=
  match text (get v "localId") with
  | None => throw INTERNAL_ERROR (Some "INTERNAL ASSERT FAILED: Invalid user response")
  | Some id =>
      Fulfilled (mkUserRecord id
                   (text (get v "email"))
                   (text (get v "phoneNumber"))
                   (match get v "providerUserInfo" with
                    | Arr items => map link items
                    | _ => []
                    end)
                   (text (get v "validSince")))
  end.

(** A clock for the examples: one date is known, anything else is an
    invalid date. *)
Definition Date_getTime (s : string) : option Z :=
  if String.eqb s "Thu, 01 Jan 1970 00:33:20 GMT" then Some 2000000 else None.

Definition claimsOf (subject : string) (authTime : Z) (tenantClaim : option string)
    : DecodedIdToken :=
  mkDecodedIdToken subject authTime authTime (authTime + 3600)
    (mkFirebaseClaims tenantClaim "password") [].

(** A verifier that knows three tokens. *)
Definition verifier : FirebaseTokenVerifier.t :=
  FirebaseTokenVerifier.mk (fun token =>
    if String.eqb token "token-of-T1" then Fulfilled (claimsOf "alice" 1000 (Some "T1"))
    else if String.eqb token "token-of-T2" then Fulfilled (claimsOf "bob" 3000 (Some "T2"))
    else if String.eqb token "token-without-tenant" then Fulfilled (claimsOf "carol" 3000 None)
    else throw INVALID_ID_TOKEN None).

Definition alice : value :=
  Obj [ ("localId", Str "alice"); ("email", Str "alice@example.com");
        ("validSince", Str "Thu, 01 Jan 1970 00:33:20 GMT") ].

Definition bob : value :=
  Obj [ ("localId", Str "bob"); ("phoneNumber", Str "+15551234") ].

(** An account linked twice to the same provider. *)
Definition dave : value :=
  Obj [ ("localId", Str "dave");
        ("providerUserInfo",
         Arr [ Obj [ ("providerId", Str "google.com"); ("rawId", Str "g-1") ];
               Obj [ ("providerId", Str "google.com"); ("rawId", Str "g-2") ] ]) ].

Definition accounts : list value := [ alice; bob; dave ].

(** The public records of [accounts]. *)
Definition records : list UserRecord :=
  Eval vm_compute in
    match map_or_throw UserRecord_new accounts with
    | Fulfilled l => l
    | Rejected _ => []
    end.

(** The request of the fourth testable property of the specification. *)
Definition wanted : list UserIdentifier :=
  [ UidIdentifier "alice"; EmailIdentifier "alice@example.com"; PhoneIdentifier "+15550000" ].

Definition hasLocalId (id : string) (v : value) : bool :=
  match text (get v "localId") with
  | Some x => String.eqb x id
  | None => false
  end.

(** A directory holding [accounts].  A batch lookup answers with all of
    them; a batch delete reports two failures whatever was asked. *)
Definition directory : Directory :=
  mkDirectory
    (fun uid =>
       match filter (hasLocalId uid) accounts with
       | [] => throw (OTHER "user-not-found") None
       | found => Fulfilled (mkGetAccountInfoResponse found)
       end)
    (fun _ => Fulfilled (mkGetAccountInfoByIdentifiersResponse (Some accounts)))
    (fun _ _ =>
       Fulfilled (mkBatchDeleteAccountsResponse
                    (Some [ mkBatchDeleteErrorInfo (Some 1) (Some "NOT_DISABLED : Disable the account");
                            mkBatchDeleteErrorInfo (Some 3) (Some "backend failure") ])))
    (fun idToken _ => Fulfilled ("cookie:" ++ idToken))
    (fun _ config => Fulfilled config)
    (fun config => Fulfilled config).

(** A directory whose batch-delete answer lacks an index. *)
Definition corruptDirectory : Directory :=
  mkDirectory
    (answer_getAccountByUid directory)
    (answer_getAccountsByIdentifiers directory)
    (fun _ _ =>
       Fulfilled (mkBatchDeleteAccountsResponse
                    (Some [ mkBatchDeleteErrorInfo (Some 1) (Some "backend failure");
                            mkBatchDeleteErrorInfo None (Some "NOT_DISABLED") ])))
    (answer_createSessionCookie directory)
    (answer_updateConfig directory)
    (answer_createConfig directory).

Definition auth : BaseAuthImpl.t :=
  BaseAuthImpl.mk (AuthRequestHandler directory) verifier verifier.

Definition corruptAuth : BaseAuthImpl.t :=
  BaseAuthImpl.mk (AuthRequestHandler corruptDirectory) verifier verifier.

Definition tenantAuth : TenantAwareAuthImpl.t :=
  TenantAwareAuthImpl.mk auth "T1".

Definition isPhoneNumber (s : string) : bool := String.prefix "+" s.

Definition template (v : value) : string :=
  match v with Str s => s | _ => "[object]" end.

Definition buildServerRequest (v : value) : Result value :=
  if validator.isNonNullObject v then Fulfilled v else throw INVALID_ARGUMENT None.

End Example.

(* ===================================================================== *)
(** ** The rest of the auth module *)
(* ===================================================================== *)

(** [p.catch(h)] *)
Definition catch_ {A : Type} (p : Promise A) (h : FirebaseAuthError -> Promise A) : Promise A :=
  fun t =>
    match p t with
    | (Fulfilled a, t') => (Fulfilled a, t')
    | (Rejected e, t') => h e t'
    end.

(** [throw error] inside a promise callback. *)
Definition rethrow {A : Type} (e : FirebaseAuthError) : Promise A :=
  fun t => (Rejected e, t).

(** [error.code === 'auth/user-not-found'].  The code of an error is
    ['auth/'] followed by the code of its error info; none of the named
    infos of [AuthClientErrorCode] has the code [user-not-found], which
    therefore only arrives as [OTHER "user-not-found"]. *)
Definition is_user_not_found (e : FirebaseAuthError) : bool :=
  match code e with
  | OTHER c => String.eqb c "user-not-found"
  | _ => false
  end.

(** Truthiness of a value. *)
Definition truthy (v : Js.value) : bool :=
  match v with
  | Js.Undefined | Js.Null | Js.NaN => false
  | Js.Boolean b => b
  | Js.Num n => negb (n =? 0)
  | Js.Str s => negb (String.eqb s EmptyString)
  | Js.Arr _ | Js.Obj _ => true
  end.

(** [v === 'text'] *)
Definition is_text (v : Js.value) (text : string) : bool :=
  match v with
  | Js.Str s => String.eqb s text
  | _ => false
  end.

(** [Object.prototype.hasOwnProperty.call(v, key)] *)
Definition hasOwnProperty (v : Js.value) (key : string) : bool :=
  Js.mem key (Js.keys v).

Record ListProviderConfigResults : Type := mkListProviderConfigResults {
  providerConfigs : list AuthProviderConfig;
  (** [None]: the result has no [pageToken] key. *)
  pageToken : option Js.value
}.

Module AccountRequests.

(** Further methods of the request handler, called by the methods below. *)
Record t : Type := mk {
  createNewAccount : Js.value -> Promise string;
  listOAuthIdpConfigs : Js.value -> Js.value -> Promise Js.value;
  listInboundSamlConfigs : Js.value -> Js.value -> Promise Js.value;
  getOAuthIdpConfig : string -> Promise Js.value;
  getInboundSamlConfig : string -> Promise Js.value;
  deleteOAuthIdpConfig : string -> Promise unit;
  deleteInboundSamlConfig : string -> Promise unit
}.

End AccountRequests.

Module BaseAuth.
Import Js.

Section Methods.

Variable UserRecord_new : value -> Result UserRecord.
Variable this : BaseAuthImpl.t.

(** The same [authRequestHandler], seen through its further methods. *)
Variable requests : AccountRequests.t.

Definition createUser (properties : value) : Promise UserRecord :=
  catch_
    (uid <- AccountRequests.createNewAccount requests properties ;;
     BaseAuthImpl.getUser UserRecord_new this uid)
    (fun error =>
       if is_user_not_found error then
         reject INTERNAL_ERROR (Some "Unable to create the user record provided.")
       else rethrow error).

(** [processResponse] of [listProviderConfigs]. *)
Definition processResponse (response : value) (configs : list AuthProviderConfig)
    : ListProviderConfigResults :=
  mkListProviderConfigResults configs
    (if hasOwnProperty response "nextPageToken"
     then Some (get response "nextPageToken")
     else None).

(** [response.field.forEach(r => providerConfigs.push(wrap(r)))]; calling
    [forEach] on something that is not an array is a [TypeError]. *)
Definition collect (wrap : value -> AuthProviderConfig) (response : value) (field : string)
    : Result (list AuthProviderConfig) :=
  match get response field with
  | Arr items => Fulfilled (map wrap items)
  | _ => throw (OTHER "TypeError") None
  end.

Definition listProviderConfigs (options : value) : Promise ListProviderConfigResults :=
  if truthy options && is_text (get options "type") "oidc" then
    response <- AccountRequests.listOAuthIdpConfigs requests
                  (get options "maxResults") (get options "pageToken") ;;
    configs <- settle (collect OIDCConfig response "oauthIdpConfigs") ;;
    resolve (processResponse response configs)
  else if truthy options && is_text (get options "type") "saml" then
    response <- AccountRequests.listInboundSamlConfigs requests
                  (get options "maxResults") (get options "pageToken") ;;
    configs <- settle (collect SAMLConfig response "inboundSamlConfigs") ;;
    resolve (processResponse response configs)
  else
    reject INVALID_ARGUMENT
      (Some (quoted "AuthProviderConfigFilter.type" ++ " must be either "
             ++ String (ascii_of_nat 34) "saml' or " ++ quoted "oidc")).

Definition getProviderConfig (providerId : string) : Promise AuthProviderConfig :=
  if OIDCConfig_isProviderId (Str providerId) then
    response <- AccountRequests.getOAuthIdpConfig requests providerId ;;
    resolve (OIDCConfig response)
  else if SAMLConfig_isProviderId (Str providerId) then
    response <- AccountRequests.getInboundSamlConfig requests providerId ;;
    resolve (SAMLConfig response)
  else reject INVALID_PROVIDER_ID None.

Definition deleteProviderConfig (providerId : string) : Promise unit :=
  if OIDCConfig_isProviderId (Str providerId) then
    AccountRequests.deleteOAuthIdpConfig requests providerId
  else if SAMLConfig_isProviderId (Str providerId) then
    AccountRequests.deleteInboundSamlConfig requests providerId
  else reject INVALID_PROVIDER_ID None.

End Methods.

End BaseAuth.

(* ===================================================================== *)
(** ** The rest of tenant-internal.ts *)
(* ===================================================================== *)

(** [o.key = v] on the own properties of an object: an existing property
    keeps its place, a new one goes last. *)
Fixpoint set_property (props : list (string * Js.value)) (key : string) (v : Js.value)
    : list (string * Js.value) :=
  match props with
  | [] => [(key, v)]
  | (k, x) :: rest =>
      if String.eqb k key then (k, v) :: rest
      else (k, x) :: set_property rest key v
  end.

Section BuildServerRequest.
Import Js.

Variable isPhoneNumber : string -> bool.
Variable template : value -> string.

(** [EmailSignInConfig.buildServerRequest] returns the own properties of
    an [EmailSignInConfigServerRequest] object, or throws. *)
Variable EmailSignInConfig_buildServerRequest : value -> Result (list (string * value)).
Variable MultiFactorAuthConfig_buildServerRequest : value -> Result value.

(** The email sign-in translator as [TenantUtils.validate] calls it. *)
Definition emailSignInRequest (config : value) : Result value :=
  and_then (EmailSignInConfig_buildServerRequest config) (fun props => Fulfilled (Obj props)).

(** [tenantOptions.testPhoneNumbers ?? {}] *)
Definition or_empty_object (v : value) : value :=
  if is_null v || is_undefined v then Obj [] else v.

Definition TenantUtils_buildServerRequest (tenantOptions : value) (createRequest : bool)
    : Result value :=
  and_then (TenantUtils.validate isPhoneNumber template emailSignInRequest
              MultiFactorAuthConfig_buildServerRequest tenantOptions createRequest) (fun _ =>
  and_then
    (if negb (is_undefined (get tenantOptions "emailSignInConfig"))
     then EmailSignInConfig_buildServerRequest (get tenantOptions "emailSignInConfig")
     else Fulfilled []) (fun request =>
  let request :=
    if negb (is_undefined (get tenantOptions "displayName"))
    then set_property request "displayName" (get tenantOptions "displayName")
    else request in
  and_then
    (if negb (is_undefined (get tenantOptions "multiFactorConfig"))
     then and_then (MultiFactorAuthConfig_buildServerRequest
                      (get tenantOptions "multiFactorConfig"))
                   (fun mfaConfig => Fulfilled (set_property request "mfaConfig" mfaConfig))
     else Fulfilled request) (fun request =>
  let request :=
    if negb (is_undefined (get tenantOptions "testPhoneNumbers"))
    then set_property request "testPhoneNumbers"
           (or_empty_object (get tenantOptions "testPhoneNumbers"))
    else request in
  Fulfilled (Obj request)))).

End BuildServerRequest.

(** The request assembled from accepted options. *)
Definition assembled (emailSignIn : Js.value -> Result (list (string * Js.value)))
    (multiFactor : Js.value -> Result Js.value) (tenantOptions : Js.value)
    : list (string * Js.value) :=
  let r0 :=
    match emailSignIn (Js.get tenantOptions "emailSignInConfig") with
    | Fulfilled props =>
        if Js.is_undefined (Js.get tenantOptions "emailSignInConfig") then [] else props
    | Rejected _ => []
    end in
  let r1 :=
    if Js.is_undefined (Js.get tenantOptions "displayName") then r0
    else set_property r0 "displayName" (Js.get tenantOptions "displayName") in
  let r2 :=
    if Js.is_undefined (Js.get tenantOptions "multiFactorConfig") then r1
    else match multiFactor (Js.get tenantOptions "multiFactorConfig") with
         | Fulfilled mfaConfig => set_property r1 "mfaConfig" mfaConfig
         | Rejected _ => r1
         end in
  if Js.is_undefined (Js.get tenantOptions "testPhoneNumbers") then r2
  else set_property r2 "testPhoneNumbers"
         (or_empty_object (Js.get tenantOptions "testPhoneNumbers")).

(** [.] of a regular expression without the [s] flag: any character but
    a line terminator.  Strings are sequences of 8-bit characters here, so
    the line terminators are line feed and carriage return. *)
Definition is_line_terminator (c : ascii) : bool :=
  ((nat_of_ascii c =? 10) || (nat_of_ascii c =? 13))%nat.

(** The group [( . * )] followed by [$] matches all of [s]. *)
Definition single_line (s : string) : bool :=
  forallb (fun c => negb (is_line_terminator c)) (list_ascii_of_string s).

(** The rest of [s] after the literal [p], when [s] starts with [p]. *)
Fixpoint strip_prefix (p s : string) : option string :=
  match p with
  | EmptyString => Some s
  | String a p' =>
      match s with
      | EmptyString => None
      | String b s' => if Ascii.eqb a b then strip_prefix p' s' else None
      end
  end.

(** The pattern of [getTenantIdFromResourceName], the literal [/tenants/]
    and then a greedy group of [.] up to the end of the input, tried at the
    first character of [s]: the capture. *)
Definition tenants_match_here (s : string) : option string :=
  match strip_prefix "/tenants/" s with
  | Some rest => if single_line rest then Some rest else None
  | None => None
  end.

(** [resourceName.match(pattern)]: the leftmost position where the
    pattern matches decides; the result is the capture, [None] for [null]. *)
Fixpoint TenantUtils_getTenantIdFromResourceName (resourceName : string) : option string :=
  match tenants_match_here resourceName with
  | Some tenantId => Some tenantId
  | None =>
      match resourceName with
      | EmptyString => None
      | String _ rest => TenantUtils_getTenantIdFromResourceName rest
      end
  end.

(** No character of [s] is a slash. *)
Definition no_slash (s : string) : bool :=
  forallb (fun c => negb (Ascii.eqb c "/")) (list_ascii_of_string s).

(* ===================================================================== *)
(** ** Further concrete collaborators *)
(* ===================================================================== *)

Module Sample.
Import Js.

(** Account creation answers with the [localId] it was given; provider
    configurations are echoed. *)
Definition requests : AccountRequests.t :=
  AccountRequests.mk
    (fun properties =>
       match Example.text (get properties "localId") with
       | Some id => resolve id
       | None => reject INVALID_ARGUMENT None
       end)
    (fun _ _ => resolve (Obj [ ("oauthIdpConfigs", Arr [ Str "oidc.a"; Str "oidc.b" ]);
                               ("nextPageToken", Str "next") ]))
    (fun _ _ => resolve (Obj [ ("inboundSamlConfigs", Arr [ Str "saml.a" ]) ]))
    (fun providerId => resolve (Str providerId))
    (fun providerId => resolve (Str providerId))
    (fun _ => resolve tt)
    (fun _ => resolve tt).

(** A directory that has lost every account. *)
Definition emptyDirectory : Directory :=
  mkDirectory
    (fun _ => throw (OTHER "user-not-found") None)
    (fun _ => Fulfilled (mkGetAccountInfoByIdentifiersResponse None))
    (answer_deleteAccounts Example.directory)
    (answer_createSessionCookie Example.directory)
    (answer_updateConfig Example.directory)
    (answer_createConfig Example.directory).

Definition emptyAuth : BaseAuthImpl.t :=
  BaseAuthImpl.mk (AuthRequestHandler emptyDirectory) Example.verifier Example.verifier.

(** A directory whose batch lookup returns an account without [localId]
    in second place. *)
Definition brokenDirectory : Directory :=
  mkDirectory
    (answer_getAccountByUid Example.directory)
    (fun _ => Fulfilled (mkGetAccountInfoByIdentifiersResponse
                           (Some [ Example.alice; Obj []; Example.bob ])))
    (answer_deleteAccounts Example.directory)
    (answer_createSessionCookie Example.directory)
    (answer_updateConfig Example.directory)
    (answer_createConfig Example.directory).

Definition brokenAuth : BaseAuthImpl.t :=
  BaseAuthImpl.mk (AuthRequestHandler brokenDirectory) Example.verifier Example.verifier.

(** An account with one link per provider. *)
Definition erin : value :=
  Obj [ ("localId", Str "erin");
        ("providerUserInfo",
         Arr [ Obj [ ("providerId", Str "password"); ("rawId", Str "erin@example.com") ];
               Obj [ ("providerId", Str "google.com"); ("rawId", Str "g-1") ] ]) ].

(** A directory whose batch lookup returns [alice] and [erin]. *)
Definition uniqueDirectory : Directory :=
  mkDirectory
    (answer_getAccountByUid Example.directory)
    (fun _ => Fulfilled (mkGetAccountInfoByIdentifiersResponse
                           (Some [ Example.alice; erin ])))
    (answer_deleteAccounts Example.directory)
    (answer_createSessionCookie Example.directory)
    (answer_updateConfig Example.directory)
    (answer_createConfig Example.directory).

Definition uniqueAuth : BaseAuthImpl.t :=
  BaseAuthImpl.mk (AuthRequestHandler uniqueDirectory) Example.verifier Example.verifier.

Definition uniqueRecords : list UserRecord :=
  Eval vm_compute in
    match map_or_throw Example.UserRecord_new [ Example.alice; erin ] with
    | Fulfilled l => l
    | Rejected _ => []
    end.

(** The email sign-in translator of the samples. *)
Definition emailSignIn (config : value) : Result (list (string * value)) :=
  match config with
  | Obj _ => Fulfilled [ ("allowPasswordSignup", get config "enabled") ]
  | _ => throw INVALID_ARGUMENT None
  end.

Definition tenantOptions : value :=
  Obj [ ("displayName", Str "tenant-one");
        ("emailSignInConfig", Obj [ ("enabled", Boolean true) ]);
        ("testPhoneNumbers", Obj [ ("+15551234567", Str "123456") ]) ].

End Sample.

(* ===================================================================== *)
(** ** Generic facts *)
(* ===================================================================== *)

Ltac unfold_promise :=
  unfold then_, settle, resolve, reject, throw in *.

Lemma then_fulfilled {A B : Type} (p : Promise A) (k : A -> Promise B) t a t' :
  p t = (Fulfilled a, t') -> then_ p k t = k a t'.
Proof. intros H. unfold then_. rewrite H. reflexivity. Qed.

Lemma then_rejected {A B : Type} (p : Promise A) (k : A -> Promise B) t e t' :
  p t = (Rejected e, t') -> then_ p k t = (Rejected e, t').
Proof. intros H. unfold then_. rewrite H. reflexivity. Qed.

Lemma then_inv {A B : Type} (p : Promise A) (k : A -> Promise B) t b t' :
  then_ p k t = (Fulfilled b, t') ->
  exists a t0, p t = (Fulfilled a, t0) /\ k a t0 = (Fulfilled b, t').
Proof.
  unfold then_. destruct (p t) as [[a | e] t0]; intros H.
  - exists a, t0. split; [reflexivity | exact H].
  - discriminate H.
Qed.

Lemma string_eqb_false_iff (a b : string) : String.eqb a b = false <-> a <> b.
Proof.
  destruct (String.eqb_spec a b) as [E | N]; split; intros H;
    try reflexivity; try discriminate; try assumption.
  contradiction.
Qed.

Lemma tenant_differs_spec this d :
  TenantAwareAuthImpl.tenant_differs this d = false <->
  tenant (firebase d) = Some (TenantAwareAuthImpl.tenantId this).
Proof.
  unfold TenantAwareAuthImpl.tenant_differs.
  destruct (tenant (firebase d)) as [x |].
  - destruct (String.eqb_spec x (TenantAwareAuthImpl.tenantId this)) as [E | N]; simpl.
    + subst x. split; reflexivity.
    + split; [discriminate | intros H; inversion H; contradiction].
  - split; discriminate.
Qed.

Lemma tenantVerify_unfold UR DG this kind token checkRevoked :
  tenantVerify UR DG this kind token checkRevoked =
  then_ (baseVerify UR DG (TenantAwareAuthImpl.super this) kind token checkRevoked)
        (fun decodedClaims =>
           if TenantAwareAuthImpl.tenant_differs this decodedClaims
           then reject MISMATCHING_TENANT_ID None
           else resolve decodedClaims).
Proof. destruct kind; reflexivity. Qed.

Lemma baseVerify_unfold UR DG this kind token checkRevoked :
  baseVerify UR DG this kind token checkRevoked =
  then_ (settle (FirebaseTokenVerifier.verifyJWT (verifierOf this kind) token))
        (fun decodedIdToken =>
           if negb checkRevoked then resolve decodedIdToken
           else BaseAuthImpl.verifyDecodedJWTNotRevoked UR DG this decodedIdToken
                  (revocationError kind)).
Proof. destruct kind; reflexivity. Qed.

(* ===================================================================== *)
(** ** Tenant isolation *)
(* ===================================================================== *)

(** C1. On a tenant-bound instance with tenant id [T], [verifyIdToken] and
    [verifySessionCookie] never resolve with a decoded token whose
    [firebase.tenant] is not [T]; and whenever the inherited verification
    succeeds with a token whose tenant claim differs from [T] (or is
    absent), the call is rejected with [MISMATCHING_TENANT_ID]. *)
Theorem tenant_verification_isolated :
  forall UR DG (this : TenantAwareAuthImpl.t) (kind : TokenKind)
         (token : string) (checkRevoked : bool) (t : Trace),
    (forall d t',
        tenantVerify UR DG this kind token checkRevoked t = (Fulfilled d, t') ->
        tenant (firebase d) = Some (TenantAwareAuthImpl.tenantId this)) /\
    (forall d t',
        baseVerify UR DG (TenantAwareAuthImpl.super this) kind token checkRevoked t
          = (Fulfilled d, t') ->
        tenant (firebase d) <> Some (TenantAwareAuthImpl.tenantId this) ->
        tenantVerify UR DG this kind token checkRevoked t
          = (Rejected (mkFirebaseAuthError MISMATCHING_TENANT_ID None), t')).
Proof.
  intros UR DG this kind token checkRevoked t. rewrite tenantVerify_unfold. split.
  - intros d t' H. apply then_inv in H. destruct H as (a & t0 & _ & H).
    destruct (TenantAwareAuthImpl.tenant_differs this a) eqn:E.
    + discriminate H.
    + inversion H; subst. apply tenant_differs_spec. exact E.
  - intros d t' H N. rewrite (then_fulfilled _ _ _ _ _ H).
    destruct (TenantAwareAuthImpl.tenant_differs this d) eqn:E.
    + reflexivity.
    + apply tenant_differs_spec in E. contradiction.
Qed.

Lemma tenant_verification_isolated_witness :
  tenant (firebase (Example.claimsOf "alice" 1000 (Some "T1"))) = Some "T1" /\
  TenantAwareAuthImpl.verifySessionCookie Example.UserRecord_new Example.Date_getTime
    Example.tenantAuth "token-of-T2" true []
  = (Rejected (mkFirebaseAuthError MISMATCHING_TENANT_ID None), [GetAccountByUid "bob"]).
Proof.
  split.
  - apply (proj1 (tenant_verification_isolated Example.UserRecord_new Example.Date_getTime
                    Example.tenantAuth IdToken "token-of-T1" false []) _ []).
    reflexivity.
  - apply (proj2 (tenant_verification_isolated Example.UserRecord_new Example.Date_getTime
                    Example.tenantAuth SessionCookie "token-of-T2" true [])
                 (Example.claimsOf "bob" 3000 (Some "T2"))).
    + reflexivity.
    + discriminate.
Defined.

(* ===================================================================== *)
(** ** Verification without the revocation check *)
(* ===================================================================== *)

(** C6. With [checkRevoked = false], on the ID-token path and on the
    session-cookie path alike, verification sends nothing to the account
    directory and settles exactly as the local decode did: the decoded
    claims unchanged (or the decoder's own error). *)
Theorem verify_unchecked_is_local_decode :
  forall UR DG (this : BaseAuthImpl.t) (token : string) (t : Trace),
    BaseAuthImpl.verifyIdToken UR DG this token false t
      = (FirebaseTokenVerifier.verifyJWT (BaseAuthImpl.idTokenVerifier this) token, t) /\
    BaseAuthImpl.verifySessionCookie UR DG this token false t
      = (FirebaseTokenVerifier.verifyJWT (BaseAuthImpl.sessionCookieVerifier this) token, t).
Proof.
  intros UR DG this token t.
  unfold BaseAuthImpl.verifyIdToken, BaseAuthImpl.verifySessionCookie.
  unfold_promise. simpl.
  destruct (FirebaseTokenVerifier.verifyJWT (BaseAuthImpl.idTokenVerifier this) token);
    destruct (FirebaseTokenVerifier.verifyJWT (BaseAuthImpl.sessionCookieVerifier this) token);
    split; reflexivity.
Qed.

(* ===================================================================== *)
(** ** Revocation check *)
(* ===================================================================== *)

(** What [verifyDecodedJWTNotRevoked] does once the account is fetched. *)
Lemma verifyDecodedJWTNotRevoked_fetched UR DG this d info user t t' :
  BaseAuthImpl.getUser UR this (sub d) t = (Fulfilled user, t') ->
  BaseAuthImpl.verifyDecodedJWTNotRevoked UR DG this d info t =
  (if BaseAuthImpl.truthy_string (tokensValidAfterTime user) &&
      BaseAuthImpl.number_lt (auth_time d * 1000)
        (match tokensValidAfterTime user with Some s => DG s | None => None end)
   then Rejected (mkFirebaseAuthError info None)
   else Fulfilled d, t').
Proof.
  intros H. unfold BaseAuthImpl.verifyDecodedJWTNotRevoked.
  rewrite (then_fulfilled _ _ _ _ _ H).
  destruct (BaseAuthImpl.truthy_string (tokensValidAfterTime user)); simpl.
  - destruct (BaseAuthImpl.number_lt _ _); reflexivity.
  - reflexivity.
Qed.

(** The two tests of the code decide [predatesCutoff], given that the
    empty string is not a date. *)
Lemma predatesCutoff_decided DG d user :
  DG EmptyString = None ->
  (BaseAuthImpl.truthy_string (tokensValidAfterTime user) &&
   BaseAuthImpl.number_lt (auth_time d * 1000)
     (match tokensValidAfterTime user with Some s => DG s | None => None end) = true)
  <-> predatesCutoff DG d user.
Proof.
  intros Hempty. unfold predatesCutoff, BaseAuthImpl.truthy_string, BaseAuthImpl.number_lt.
  split.
  - intros H. apply andb_true_iff in H. destruct H as [_ H].
    destruct (tokensValidAfterTime user) as [s |]; [| discriminate H].
    destruct (DG s) as [v |] eqn:E; [| discriminate H].
    exists s, v. repeat split; try assumption. apply Z.ltb_lt. exact H.
  - intros (s & v & Hs & Hv & Hlt). rewrite Hs, Hv.
    apply andb_true_iff. split.
    + destruct (String.eqb_spec s EmptyString) as [E | N]; [| reflexivity].
      subst s. rewrite Hempty in Hv. discriminate Hv.
    + apply Z.ltb_lt. exact Hlt.
Qed.

(** C2. For a token that decodes successfully and is verified with
    [checkRevoked = true], once the account record is fetched: the call is
    rejected with the revocation error of its path ([ID_TOKEN_REVOKED] or
    [SESSION_COOKIE_REVOKED]) if and only if the record has a
    [tokensValidAfterTime] and [auth_time * 1000] is strictly below that
    value in milliseconds; otherwise the decoded token is returned
    unchanged, in particular whenever the record has no
    [tokensValidAfterTime]. *)
Theorem revocation_check_exact :
  forall UR DG (this : BaseAuthImpl.t) (kind : TokenKind) (token : string)
         (d : DecodedIdToken) (user : UserRecord) (t t' : Trace),
    DG EmptyString = None ->
    FirebaseTokenVerifier.verifyJWT (verifierOf this kind) token = Fulfilled d ->
    BaseAuthImpl.getUser UR this (sub d) t = (Fulfilled user, t') ->
    (baseVerify UR DG this kind token true t
       = (Rejected (mkFirebaseAuthError (revocationError kind) None), t')
     <-> predatesCutoff DG d user) /\
    (~ predatesCutoff DG d user ->
     baseVerify UR DG this kind token true t = (Fulfilled d, t')) /\
    (tokensValidAfterTime user = None ->
     baseVerify UR DG this kind token true t = (Fulfilled d, t')).
Proof.
  intros UR DG this kind token d user t t' Hempty Hdecode Hfetch.
  rewrite baseVerify_unfold.
  assert (Hrun : then_ (settle (FirebaseTokenVerifier.verifyJWT (verifierOf this kind) token))
            (fun decodedIdToken =>
               if negb true then resolve decodedIdToken
               else BaseAuthImpl.verifyDecodedJWTNotRevoked UR DG this decodedIdToken
                      (revocationError kind)) t
          = BaseAuthImpl.verifyDecodedJWTNotRevoked UR DG this d (revocationError kind) t).
  { unfold then_, settle. rewrite Hdecode. reflexivity. }
  rewrite Hrun, (verifyDecodedJWTNotRevoked_fetched UR DG this d _ user t t' Hfetch).
  pose proof (predatesCutoff_decided DG d user Hempty) as Hdec.
  destruct (BaseAuthImpl.truthy_string (tokensValidAfterTime user) &&
            BaseAuthImpl.number_lt (auth_time d * 1000)
              (match tokensValidAfterTime user with Some s => DG s | None => None end)) eqn:E.
  - assert (P : predatesCutoff DG d user) by (apply Hdec; reflexivity).
    split; [split; intros _; [exact P | reflexivity] |].
    split.
    + intros N. contradiction.
    + intros Hnone. destruct P as (s & v & Hs & _). rewrite Hnone in Hs. discriminate Hs.
  - assert (N : ~ predatesCutoff DG d user).
    { intros P. apply Hdec in P. discriminate P. }
    split; [split; [intros H; discriminate H | intros P; contradiction] |].
    split; intros _; reflexivity.
Qed.

Lemma revocation_check_exact_witness :
  BaseAuthImpl.verifyIdToken Example.UserRecord_new Example.Date_getTime
    Example.auth "token-of-T1" true []
  = (Rejected (mkFirebaseAuthError ID_TOKEN_REVOKED None), [GetAccountByUid "alice"]).
Proof.
  apply (proj1 (revocation_check_exact Example.UserRecord_new Example.Date_getTime
                  Example.auth IdToken "token-of-T1"
                  (Example.claimsOf "alice" 1000 (Some "T1"))
                  (mkUserRecord "alice" (Some "alice@example.com") None []
                     (Some "Thu, 01 Jan 1970 00:33:20 GMT"))
                  [] [GetAccountByUid "alice"]
                  eq_refl eq_refl eq_refl)).
  exists "Thu, 01 Jan 1970 00:33:20 GMT", 2000000.
  repeat split; reflexivity.
Defined.

(* ===================================================================== *)
(** ** Session cookies on a tenant-bound instance *)
(* ===================================================================== *)

(** With the revocation check off, the tenant-checked verification does
    not reach the directory. *)
Lemma tenant_verifyIdToken_unchecked UR DG this idToken t :
  TenantAwareAuthImpl.verifyIdToken UR DG this idToken false t =
  (match FirebaseTokenVerifier.verifyJWT
           (BaseAuthImpl.idTokenVerifier (TenantAwareAuthImpl.super this)) idToken with
   | Fulfilled d =>
       if TenantAwareAuthImpl.tenant_differs this d
       then Rejected (mkFirebaseAuthError MISMATCHING_TENANT_ID None)
       else Fulfilled d
   | Rejected e => Rejected e
   end, t).
Proof.
  unfold TenantAwareAuthImpl.verifyIdToken, BaseAuthImpl.verifyIdToken.
  unfold_promise. simpl.
  destruct (FirebaseTokenVerifier.verifyJWT _ idToken) as [d | e]; [| reflexivity].
  destruct (TenantAwareAuthImpl.tenant_differs this d); reflexivity.
Qed.

Lemma expiresIn_guard (sessionCookieOptions : Js.value) :
  negb (validator.isNonNullObject sessionCookieOptions) ||
  negb (validator.isNumber (Js.get sessionCookieOptions "expiresIn"))
  = negb (validator.isNumber (Js.get sessionCookieOptions "expiresIn")).
Proof. destruct sessionCookieOptions; reflexivity. Qed.

(** C3, as stated, fails: an empty [idToken] with no [expiresIn] is turned
    down with [INVALID_ID_TOKEN], not [INVALID_SESSION_COOKIE_DURATION]. *)
Lemma createSessionCookie_empty_token_counterexample :
  validator.isNumber (Js.get (Js.Obj []) "expiresIn") = false /\
  TenantAwareAuthImpl.createSessionCookie Example.UserRecord_new Example.Date_getTime
    Example.tenantAuth EmptyString (Js.Obj []) []
  = (Rejected (mkFirebaseAuthError INVALID_ID_TOKEN None), []) /\
  fst (TenantAwareAuthImpl.createSessionCookie Example.UserRecord_new Example.Date_getTime
         Example.tenantAuth EmptyString (Js.Obj []) [])
  <> Rejected (mkFirebaseAuthError INVALID_SESSION_COOKIE_DURATION None).
Proof. repeat split. discriminate. Qed.

(** C3, amended. On a tenant-bound instance, [createSessionCookie] with an
    empty [idToken] fails with [INVALID_ID_TOKEN]; with a non-empty
    [idToken]: if [options.expiresIn] is absent or not a number it fails
    with [INVALID_SESSION_COOKIE_DURATION]; otherwise the token goes
    through the tenant-checked [verifyIdToken] first, a failure there
    (such as [MISMATCHING_TENANT_ID] for another tenant's token) is the
    outcome, and only after a success is the handler asked to mint the
    cookie.  Nothing is sent to the directory before that point. *)
Theorem tenant_createSessionCookie_order :
  forall UR DG (this : TenantAwareAuthImpl.t) (idToken : string)
         (sessionCookieOptions : Js.value) (t : Trace),
    (idToken = EmptyString ->
     TenantAwareAuthImpl.createSessionCookie UR DG this idToken sessionCookieOptions t
       = (Rejected (mkFirebaseAuthError INVALID_ID_TOKEN None), t)) /\
    (idToken <> EmptyString ->
     (validator.isNumber (Js.get sessionCookieOptions "expiresIn") = false ->
      TenantAwareAuthImpl.createSessionCookie UR DG this idToken sessionCookieOptions t
        = (Rejected (mkFirebaseAuthError INVALID_SESSION_COOKIE_DURATION None), t)) /\
     (validator.isNumber (Js.get sessionCookieOptions "expiresIn") = true ->
      (forall e t',
          TenantAwareAuthImpl.verifyIdToken UR DG this idToken false t = (Rejected e, t') ->
          t' = t /\
          TenantAwareAuthImpl.createSessionCookie UR DG this idToken sessionCookieOptions t
            = (Rejected e, t)) /\
      (forall d,
          FirebaseTokenVerifier.verifyJWT
            (BaseAuthImpl.idTokenVerifier (TenantAwareAuthImpl.super this)) idToken
            = Fulfilled d ->
          tenant (firebase d) <> Some (TenantAwareAuthImpl.tenantId this) ->
          TenantAwareAuthImpl.createSessionCookie UR DG this idToken sessionCookieOptions t
            = (Rejected (mkFirebaseAuthError MISMATCHING_TENANT_ID None), t)) /\
      (forall d t',
          TenantAwareAuthImpl.verifyIdToken UR DG this idToken false t = (Fulfilled d, t') ->
          t' = t /\
          TenantAwareAuthImpl.createSessionCookie UR DG this idToken sessionCookieOptions t
            = AbstractAuthRequestHandler.createSessionCookie
                (BaseAuthImpl.authRequestHandler (TenantAwareAuthImpl.super this))
                idToken (Js.get sessionCookieOptions "expiresIn") t))).
Proof.
  intros UR DG this idToken opts t. split.
  - intros ->. reflexivity.
  - intros Hne.
    assert (Hguard : negb (validator.isNonEmptyString (Js.Str idToken)) = false).
    { simpl. apply string_eqb_false_iff in Hne. rewrite Hne. reflexivity. }
    unfold TenantAwareAuthImpl.createSessionCookie.
    rewrite Hguard, expiresIn_guard. split.
    + intros Hnum. rewrite Hnum. reflexivity.
    + intros Hnum. rewrite Hnum. simpl.
      unfold then_. rewrite tenant_verifyIdToken_unchecked.
      unfold BaseAuthImpl.createSessionCookie. rewrite expiresIn_guard, Hnum. simpl.
      destruct (FirebaseTokenVerifier.verifyJWT _ idToken) as [d | e].
      * destruct (TenantAwareAuthImpl.tenant_differs this d) eqn:E;
          (split; [| split]).
        -- intros e t' H. inversion H; subst. split; reflexivity.
        -- intros d' H N. inversion H; reflexivity.
        -- intros d' t' H. discriminate H.
        -- intros e t' H. discriminate H.
        -- intros d' H N. inversion H; subst d'.
           apply tenant_differs_spec in E. contradiction.
        -- intros d' t' H. inversion H; subst. split; reflexivity.
      * split; [| split].
        -- intros e' t' H. inversion H; subst. split; reflexivity.
        -- intros d' H. discriminate H.
        -- intros d' t' H. discriminate H.
Qed.

Lemma tenant_createSessionCookie_order_witness :
  TenantAwareAuthImpl.createSessionCookie Example.UserRecord_new Example.Date_getTime
    Example.tenantAuth "token-of-T1" (Js.Obj []) []
  = (Rejected (mkFirebaseAuthError INVALID_SESSION_COOKIE_DURATION None), []) /\
  TenantAwareAuthImpl.createSessionCookie Example.UserRecord_new Example.Date_getTime
    Example.tenantAuth "token-of-T2" (Js.Obj [("expiresIn", Js.Num 300000)]) []
  = (Rejected (mkFirebaseAuthError MISMATCHING_TENANT_ID None), []) /\
  TenantAwareAuthImpl.createSessionCookie Example.UserRecord_new Example.Date_getTime
    Example.tenantAuth "token-of-T1" (Js.Obj [("expiresIn", Js.Num 300000)]) []
  = (Fulfilled "cookie:token-of-T1", [CreateSessionCookie "token-of-T1" (Js.Num 300000)]).
Proof.
  split; [| split].
  - destruct (tenant_createSessionCookie_order Example.UserRecord_new Example.Date_getTime
                Example.tenantAuth "token-of-T1" (Js.Obj []) []) as [_ H].
    destruct H as [H _]; [discriminate |]. apply H. reflexivity.
  - destruct (tenant_createSessionCookie_order Example.UserRecord_new Example.Date_getTime
                Example.tenantAuth "token-of-T2"
                (Js.Obj [("expiresIn", Js.Num 300000)]) []) as [_ H].
    destruct H as [_ H]; [discriminate |].
    destruct H as (_ & H & _); [reflexivity |].
    apply (H (Example.claimsOf "bob" 3000 (Some "T2"))); [reflexivity | discriminate].
  - destruct (tenant_createSessionCookie_order Example.UserRecord_new Example.Date_getTime
                Example.tenantAuth "token-of-T1"
                (Js.Obj [("expiresIn", Js.Num 300000)]) []) as [_ H].
    destruct H as [_ H]; [discriminate |].
    destruct H as (_ & _ & H); [reflexivity |].
    destruct (H (Example.claimsOf "alice" 1000 (Some "T1")) []) as [_ H'];
      [reflexivity |].
    rewrite H'. reflexivity.
Defined.

(* ===================================================================== *)
(** ** Batch size limits *)
(* ===================================================================== *)

(** C4. Behind the request handler of the specification, [getUsers] with
    more than 100 identifiers and [deleteUsers] with more than 1000 uids
    are rejected with [INVALID_ARGUMENT], and the trace of directory
    requests is left as it was. *)
Theorem batch_limits_before_directory :
  forall UR (d : Directory) (idv scv : FirebaseTokenVerifier.t)
         (identifiers : list UserIdentifier) (uids : list string) (t : Trace),
    let this := BaseAuthImpl.mk (AuthRequestHandler d) idv scv in
    ((100 < List.length identifiers)%nat ->
     BaseAuthImpl.getUsers UR this (an_array identifiers) t
       = (Rejected (mkFirebaseAuthError INVALID_ARGUMENT None), t)) /\
    ((1000 < List.length uids)%nat ->
     BaseAuthImpl.deleteUsers this (an_array uids) t
       = (Rejected (mkFirebaseAuthError INVALID_ARGUMENT None), t)).
Proof.
  intros UR d idv scv identifiers uids t this. split; intros H.
  - unfold BaseAuthImpl.getUsers, then_. simpl.
    apply Nat.ltb_lt in H. unfold MAX_GET_ACCOUNTS_BATCH_SIZE. rewrite H. reflexivity.
  - unfold BaseAuthImpl.deleteUsers, then_. simpl.
    apply Nat.ltb_lt in H. unfold MAX_DELETE_ACCOUNTS_BATCH_SIZE. rewrite H.
    rewrite orb_true_r. reflexivity.
Qed.

Lemma batch_limits_before_directory_witness :
  BaseAuthImpl.getUsers Example.UserRecord_new Example.auth
    (an_array (repeat (UidIdentifier "a") 101)) []
  = (Rejected (mkFirebaseAuthError INVALID_ARGUMENT None), []) /\
  BaseAuthImpl.deleteUsers Example.auth (an_array (repeat "a" 1001)) []
  = (Rejected (mkFirebaseAuthError INVALID_ARGUMENT None), []).
Proof.
  split.
  - apply (proj1 (batch_limits_before_directory Example.UserRecord_new Example.directory
                    Example.verifier Example.verifier
                    (repeat (UidIdentifier "a") 101) [] [])).
    rewrite repeat_length. apply Nat.lt_succ_diag_r.
  - apply (proj2 (batch_limits_before_directory Example.UserRecord_new Example.directory
                    Example.verifier Example.verifier
                    [] (repeat "a" 1001) [])).
    rewrite repeat_length. apply Nat.lt_succ_diag_r.
Defined.

(* ===================================================================== *)
(** ** Provider configuration: the configuration check comes first *)
(* ===================================================================== *)

(** C10. Whatever the provider id, [updateProviderConfig] with a null or
    non-object configuration and [createProviderConfig] with a null or
    non-object configuration are rejected with [INVALID_CONFIG] (so never
    with [INVALID_PROVIDER_ID]), and nothing is sent to the directory. *)
Theorem provider_config_checked_first :
  forall (this : BaseAuthImpl.t) (providerId : string) (config : Js.value) (t : Trace),
    config = Js.Null \/ validator.isObject config = false ->
    (exists msg,
        BaseAuthImpl.updateProviderConfig this providerId config t
          = (Rejected (mkFirebaseAuthError INVALID_CONFIG msg), t)) /\
    (exists msg,
        BaseAuthImpl.createProviderConfig this config t
          = (Rejected (mkFirebaseAuthError INVALID_CONFIG msg), t)).
Proof.
  intros this providerId config t H.
  assert (G : negb (validator.isNonNullObject config) = true).
  { unfold validator.isNonNullObject. destruct H as [-> | H].
    - reflexivity.
    - rewrite H. reflexivity. }
  unfold BaseAuthImpl.updateProviderConfig, BaseAuthImpl.createProviderConfig.
  rewrite G. split; eexists; reflexivity.
Qed.

Lemma provider_config_checked_first_witness :
  (exists msg,
      BaseAuthImpl.updateProviderConfig Example.auth "facebook.com" Js.Null []
        = (Rejected (mkFirebaseAuthError INVALID_CONFIG msg), [])) /\
  (exists msg,
      BaseAuthImpl.createProviderConfig Example.auth (Js.Str "facebook.com") []
        = (Rejected (mkFirebaseAuthError INVALID_CONFIG msg), [])).
Proof.
  split.
  - apply (proj1 (provider_config_checked_first Example.auth "facebook.com" Js.Null []
                    (or_introl eq_refl))).
  - apply (proj2 (provider_config_checked_first Example.auth "x" (Js.Str "facebook.com") []
                    (or_intror eq_refl))).
Defined.

(* ===================================================================== *)
(** ** Batch lookup *)
(* ===================================================================== *)

Lemma find_first {A : Type} (f : A -> bool) (l : list A) (x : A) :
  find f l = Some x <->
  exists before after,
    l = (before ++ x :: after)%list /\ f x = true /\
    forall i, In i before -> f i = false.
Proof.
  induction l as [| a l IH]; simpl.
  - split; [discriminate |].
    intros (before & after & E & _). destruct before; discriminate E.
  - destruct (f a) eqn:Fa; split.
    + intros H. inversion H; subst a. exists [], l. simpl.
      split; [reflexivity | split; [exact Fa | intros i []]].
    + intros (before & after & E & Fx & Hb). destruct before as [| b before]; simpl in E.
      * inversion E; reflexivity.
      * inversion E; subst b. rewrite (Hb a (or_introl eq_refl)) in Fa. discriminate Fa.
    + intros H. apply IH in H. destruct H as (before & after & E & Fx & Hb).
      exists (a :: before), after. simpl. rewrite E.
      split; [reflexivity | split; [exact Fx |]].
      intros i [<- | Hi]; [exact Fa | apply Hb; exact Hi].
    + intros (before & after & E & Fx & Hb). apply IH.
      destruct before as [| b before]; simpl in E.
      * inversion E; subst a. rewrite Fx in Fa. discriminate Fa.
      * inversion E; subst b. exists before, after.
        split; [reflexivity | split; [exact Fx |]].
        intros i Hi. apply Hb. right. exact Hi.
Qed.

(** The callback of [isUserFound] decides [Matches]. *)
Lemma identifies_Matches (id : UserIdentifier) (account : UserRecord) :
  BaseAuthImpl.identifies id account = true <-> Matches id account.
Proof.
  destruct id as [u | e | p | pid puid]; simpl.
  - split.
    + intros H. apply String.eqb_eq in H. subst u. constructor.
    + intros H. inversion H. apply String.eqb_refl.
  - split.
    + intros H. destruct (email account) as [e' |] eqn:E; [| discriminate H].
      apply String.eqb_eq in H. subst e'. constructor. exact E.
    + intros H. inversion H as [| e0 a0 E | |]; subst. rewrite E. apply String.eqb_refl.
  - split.
    + intros H. destruct (phoneNumber account) as [p' |] eqn:E; [| discriminate H].
      apply String.eqb_eq in H. subst p'. constructor. exact E.
    + intros H. inversion H as [| | p0 a0 E |]; subst. rewrite E. apply String.eqb_refl.
  - split.
    + intros H.
      destruct (find _ (providerData account)) as [entry |] eqn:F; [| discriminate H].
      apply find_first in F. destruct F as (before & after & E & Fx & Hb).
      apply String.eqb_eq in H. apply String.eqb_eq in Fx. subst pid puid.
      apply (matches_provider account before entry after E).
      intros i Hi N. apply Hb in Hi. rewrite <- N, String.eqb_refl in Hi. discriminate Hi.
    + intros H. inversion H as [| | | a0 before entry after E Hb]; subst.
      assert (F : find (fun userInfo => String.eqb (info_providerId entry)
                                          (info_providerId userInfo))
                       (providerData account) = Some entry).
      { apply find_first. exists before, after.
        split; [exact E | split; [apply String.eqb_refl |]].
        intros i Hi. apply string_eqb_false_iff. intros N. apply (Hb i Hi). symmetry. exact N. }
      rewrite F. apply String.eqb_refl.
Qed.

Lemma isUserFound_Matches (id : UserIdentifier) (accounts : list UserRecord) :
  BaseAuthImpl.isUserFound id accounts = true <->
  exists account, In account accounts /\ Matches id account.
Proof.
  unfold BaseAuthImpl.isUserFound. rewrite existsb_exists.
  split; intros (a & Ha & H); exists a; (split; [exact Ha | apply identifies_Matches; exact H]).
Qed.

Lemma map_or_throw_Forall2 {A B : Type} (f : A -> Result B) (xs : list A) (ys : list B) :
  Forall2 (fun x y => f x = Fulfilled y) xs ys -> map_or_throw f xs = Fulfilled ys.
Proof.
  induction 1 as [| x y xs ys Hxy _ IH]; simpl.
  - reflexivity.
  - rewrite Hxy. simpl. rewrite IH. reflexivity.
Qed.

(** When no account carries two links to one provider, the code's matching
    and the specification's matching agree. *)
Lemma identifies_specMatches (id : UserIdentifier) (account : UserRecord) :
  NoDup (map info_providerId (providerData account)) ->
  BaseAuthImpl.identifies id account = specMatches id account.
Proof.
  intros ND. destruct id as [u | e | p | pid puid]; try reflexivity. simpl.
  induction (providerData account) as [| i l IH]; simpl.
  - reflexivity.
  - simpl in ND. inversion ND as [| x xs Hnotin ND']; subst.
    destruct (String.eqb_spec pid (info_providerId i)) as [E | N]; simpl.
    + destruct (String.eqb puid (info_uid i)); simpl; [reflexivity |].
      symmetry. apply not_true_is_false. intros H. apply existsb_exists in H.
      destruct H as (j & Hj & Hb). apply andb_true_iff in Hb. destruct Hb as [Hb _].
      apply String.eqb_eq in Hb. apply Hnotin. rewrite <- E, Hb.
      apply in_map. exact Hj.
    + apply IH. exact ND'.
Qed.

(** C5, as stated, fails: an identifier whose provider id and provider uid
    both equal those of a provider entry of a returned account is still
    reported as not found when an earlier entry of that account has the
    same provider id. *)
Lemma getUsers_second_link_counterexample :
  match fst (BaseAuthImpl.getUsers Example.UserRecord_new Example.auth
               (an_array [ProviderIdentifier "google.com" "g-2"]) []) with
  | Fulfilled r =>
      notFound r = [ProviderIdentifier "google.com" "g-2"] /\
      existsb (specMatches (ProviderIdentifier "google.com" "g-2")) (users r) = true
  | Rejected _ => False
  end.
Proof. vm_compute. split; reflexivity. Qed.

(** C5, amended. Once the handler has answered, [getUsers] resolves with
    [users] the returned accounts, each converted to a public record, in
    the order returned, and [notFound] the requested identifiers, in
    request order, that match no returned account; a uid, email or phone
    identifier matches by equality with the field, and a provider
    identifier matches an account when the first provider entry of the
    account with that provider id has that provider uid. *)
Theorem getUsers_partition :
  forall UR (this : BaseAuthImpl.t) (identifiers : list UserIdentifier)
         (response : GetAccountInfoByIdentifiersResponse)
         (accounts : list UserRecord) (t t' : Trace),
    AbstractAuthRequestHandler.getAccountInfoByIdentifiers
      (BaseAuthImpl.authRequestHandler this) identifiers t = (Fulfilled response, t') ->
    Forall2 (fun raw account => UR raw = Fulfilled account)
            (match batch_users response with Some raws => raws | None => [] end)
            accounts ->
    exists r,
      BaseAuthImpl.getUsers UR this (an_array identifiers) t = (Fulfilled r, t') /\
      users r = accounts /\
      exists unmatched : UserIdentifier -> bool,
        notFound r = filter unmatched identifiers /\
        forall id, unmatched id = true <->
                   (forall account, In account accounts -> ~ Matches id account).
Proof.
  intros UR this identifiers response accounts t t' Hcall Hconv.
  exists (mkGetUsersResult accounts
            (filter (fun id => negb (BaseAuthImpl.isUserFound id accounts)) identifiers)).
  split; [| split; [reflexivity |]].
  - unfold BaseAuthImpl.getUsers. rewrite (then_fulfilled _ _ _ _ _ Hcall).
    apply map_or_throw_Forall2 in Hconv.
    unfold then_, settle, resolve.
    destruct (batch_users response) as [raws |].
    + rewrite Hconv. reflexivity.
    + simpl in Hconv. inversion Hconv. reflexivity.
  - exists (fun id => negb (BaseAuthImpl.isUserFound id accounts)).
    split; [reflexivity |]. intros id. rewrite negb_true_iff. split.
    + intros Hnf account Hin M.
      assert (F : BaseAuthImpl.isUserFound id accounts = true).
      { apply isUserFound_Matches. exists account. split; assumption. }
      rewrite F in Hnf. discriminate Hnf.
    + intros Hnone. apply not_true_is_false. intros F.
      apply isUserFound_Matches in F. destruct F as (account & Hin & M).
      exact (Hnone account Hin M).
Qed.

Lemma getUsers_partition_witness :
  exists r,
    BaseAuthImpl.getUsers Example.UserRecord_new Example.auth
      (an_array Example.wanted) []
    = (Fulfilled r, [GetAccountsByIdentifiers Example.wanted]) /\
    users r = Example.records /\
    exists unmatched : UserIdentifier -> bool,
      notFound r = filter unmatched Example.wanted /\
      forall id, unmatched id = true <->
                 (forall account, In account Example.records -> ~ Matches id account).
Proof.
  apply (getUsers_partition Example.UserRecord_new Example.auth Example.wanted
           (mkGetAccountInfoByIdentifiersResponse (Some Example.accounts))
           Example.records [] [GetAccountsByIdentifiers Example.wanted] eq_refl).
  repeat constructor.
Defined.

(* ===================================================================== *)
(** ** Batch delete *)
(* ===================================================================== *)

Lemma not_disabled_test (m : string) :
  negb (String.eqb m EmptyString) && String.prefix "NOT_DISABLED" m
  = String.prefix "NOT_DISABLED" m.
Proof. destruct m; reflexivity. Qed.

Lemma toIndexError_defined (info : BatchDeleteErrorInfo) (i : Z) :
  err_index info = Some i ->
  exists e, BaseAuthImpl.toIndexError info = Fulfilled e /\ mapsTo info e.
Proof.
  intros H. unfold BaseAuthImpl.toIndexError. rewrite H.
  eexists. split; [reflexivity |]. unfold mapsTo; simpl.
  split; [exact H | split; [reflexivity |]].
  destruct (err_message info) as [m |]; simpl; [| reflexivity].
  rewrite not_disabled_test. reflexivity.
Qed.

Lemma map_toIndexError_defined (errs : list BatchDeleteErrorInfo) :
  (forall info, In info errs -> err_index info <> None) ->
  exists mapped,
    map_or_throw BaseAuthImpl.toIndexError errs = Fulfilled mapped /\
    Forall2 mapsTo errs mapped.
Proof.
  induction errs as [| info errs IH]; intros H.
  - exists []. split; [reflexivity | constructor].
  - destruct (err_index info) as [i |] eqn:E.
    + destruct (toIndexError_defined info i E) as (e & He & Hm).
      destruct IH as (mapped & Hmap & Hall).
      { intros x Hx. apply H. right. exact Hx. }
      exists (e :: mapped). simpl. rewrite He. simpl. rewrite Hmap. simpl.
      split; [reflexivity | constructor; assumption].
    + exfalso. apply (H info (or_introl eq_refl)). exact E.
Qed.

Lemma map_toIndexError_corrupt (errs : list BatchDeleteErrorInfo) :
  (exists info, In info errs /\ err_index info = None) ->
  map_or_throw BaseAuthImpl.toIndexError errs
  = Rejected (mkFirebaseAuthError INTERNAL_ERROR
                (Some "Corrupt BatchDeleteAccountsResponse detected")).
Proof.
  induction errs as [| x errs IH]; intros (info & Hin & Hnone).
  - destruct Hin.
  - simpl. unfold BaseAuthImpl.toIndexError at 1.
    destruct (err_index x) as [i |] eqn:E.
    + simpl. destruct Hin as [-> | Hin].
      * rewrite Hnone in E. discriminate E.
      * rewrite IH; [reflexivity |]. exists info. split; assumption.
    + reflexivity.
Qed.

(** [deleteUsers] after the handler's answer. *)
Lemma deleteUsers_answered this uids response t t' :
  AbstractAuthRequestHandler.deleteAccounts (BaseAuthImpl.authRequestHandler this)
    uids true t = (Fulfilled response, t') ->
  BaseAuthImpl.deleteUsers this (an_array uids) t =
  (match errorsOf response with
   | [] => Fulfilled (mkDeleteUsersResult 0 (Z.of_nat (List.length uids)) [])
   | _ :: _ =>
       and_then (map_or_throw BaseAuthImpl.toIndexError (errorsOf response))
         (fun mapped =>
            Fulfilled (mkDeleteUsersResult
                         (Z.of_nat (List.length (errorsOf response)))
                         (Z.of_nat (List.length uids)
                          - Z.of_nat (List.length (errorsOf response)))
                         mapped))
   end, t').
Proof.
  intros H. unfold BaseAuthImpl.deleteUsers. rewrite (then_fulfilled _ _ _ _ _ H).
  unfold errorsOf. destruct (response_errors response) as [[| info errs] |];
    try reflexivity.
  cbn [validator.isNonEmptyArray negb]. unfold then_, settle, resolve.
  destruct (map_or_throw BaseAuthImpl.toIndexError (info :: errs)); reflexivity.
Qed.

Lemma deleteUsers_resolved_inv this uids r t t' :
  BaseAuthImpl.deleteUsers this (an_array uids) t = (Fulfilled r, t') ->
  exists response,
    AbstractAuthRequestHandler.deleteAccounts (BaseAuthImpl.authRequestHandler this)
      uids true t = (Fulfilled response, t').
Proof.
  intros H. unfold BaseAuthImpl.deleteUsers in H.
  destruct (AbstractAuthRequestHandler.deleteAccounts _ uids true t) as [[resp | e] t0] eqn:E.
  - rewrite (then_fulfilled _ _ _ _ _ E) in H. exists resp.
    destruct (negb (validator.isNonEmptyArray (response_errors resp))).
    + inversion H; reflexivity.
    + unfold then_, settle, resolve in H.
      destruct (map_or_throw _ _); inversion H; reflexivity.
  - rewrite (then_rejected _ _ _ _ _ E) in H. discriminate H.
Qed.

(** C7, as stated, fails: when the directory reports more errors than
    uids were requested, [successCount] is negative. *)
Lemma deleteUsers_negative_successCount_counterexample :
  match fst (BaseAuthImpl.deleteUsers Example.auth (an_array ["a"]) []) with
  | Fulfilled r => successCount r = -1 /\ failureCount r = 2
  | Rejected _ => False
  end.
Proof. vm_compute. split; reflexivity. Qed.

(** C7, amended. Whenever [deleteUsers] resolves, the handler answered and
    [successCount + failureCount] is the number of requested uids;
    [failureCount] is non-negative, and [successCount] is non-negative
    exactly when the directory reported no more errors than uids were
    requested.  An empty (or absent) error list gives
    [successCount = len(uids)], [failureCount = 0], [errors = []]; a
    non-empty one gives [failureCount = len(errors)] and
    [successCount = len(uids) - len(errors)]. *)
Theorem deleteUsers_counts :
  forall (this : BaseAuthImpl.t) (uids : list string) (r : DeleteUsersResult)
         (t t' : Trace),
    BaseAuthImpl.deleteUsers this (an_array uids) t = (Fulfilled r, t') ->
    exists response,
      AbstractAuthRequestHandler.deleteAccounts (BaseAuthImpl.authRequestHandler this)
        uids true t = (Fulfilled response, t') /\
      successCount r + failureCount r = Z.of_nat (List.length uids) /\
      0 <= failureCount r /\
      (0 <= successCount r <->
       (List.length (errorsOf response) <= List.length uids)%nat) /\
      (errorsOf response = [] ->
       r = mkDeleteUsersResult 0 (Z.of_nat (List.length uids)) []) /\
      (errorsOf response <> [] ->
       failureCount r = Z.of_nat (List.length (errorsOf response)) /\
       successCount r
         = Z.of_nat (List.length uids) - Z.of_nat (List.length (errorsOf response))).
Proof.
  intros this uids r t t' H.
  destruct (deleteUsers_resolved_inv this uids r t t' H) as (response & Hcall).
  exists response. split; [exact Hcall |].
  rewrite (deleteUsers_answered this uids response t t' Hcall) in H.
  destruct (errorsOf response) as [| info errs] eqn:E.
  - inversion H; subst r; simpl.
    split; [lia | split; [lia | split; [split; intros _; simpl; lia |]]].
    split; [reflexivity | intros N; contradiction].
  - destruct (map_or_throw BaseAuthImpl.toIndexError (info :: errs)) as [mapped | e];
      unfold and_then in H; [| discriminate H].
    assert (Hr : r = mkDeleteUsersResult
                       (Z.of_nat (List.length (info :: errs)))
                       (Z.of_nat (List.length uids)
                        - Z.of_nat (List.length (info :: errs)))
                       mapped) by congruence.
    rewrite Hr; cbn [successCount failureCount].
    split; [lia | split; [lia | split; [split; intros L; lia |]]].
    split; [discriminate | intros _; split; reflexivity].
Qed.

Lemma deleteUsers_counts_witness :
  let uids := ["a"; "b"; "c"; "d"; "e"] in
  let r := mkDeleteUsersResult 2 3
             [ mkFirebaseArrayIndexError 1
                 (mkFirebaseAuthError USER_NOT_DISABLED
                    (Some "NOT_DISABLED : Disable the account"));
               mkFirebaseArrayIndexError 3
                 (mkFirebaseAuthError INTERNAL_ERROR (Some "backend failure")) ] in
  BaseAuthImpl.deleteUsers Example.auth (an_array uids) []
    = (Fulfilled r, [DeleteAccounts uids true]) /\
  exists response,
    AbstractAuthRequestHandler.deleteAccounts (BaseAuthImpl.authRequestHandler Example.auth)
      uids true [] = (Fulfilled response, [DeleteAccounts uids true]) /\
    successCount r + failureCount r = Z.of_nat (List.length uids) /\
    0 <= failureCount r /\
    (0 <= successCount r <->
     (List.length (errorsOf response) <= List.length uids)%nat) /\
    (errorsOf response = [] ->
     r = mkDeleteUsersResult 0 (Z.of_nat (List.length uids)) []) /\
    (errorsOf response <> [] ->
     failureCount r = Z.of_nat (List.length (errorsOf response)) /\
     successCount r
       = Z.of_nat (List.length uids) - Z.of_nat (List.length (errorsOf response))).
Proof.
  intros uids r. split; [reflexivity |].
  apply (deleteUsers_counts Example.auth uids r [] [DeleteAccounts uids true]).
  reflexivity.
Defined.

(** C8. When the directory's answer to [deleteUsers] carries a non-empty
    error list: if some entry has no index the whole call is rejected with
    [INTERNAL_ERROR]; if every entry has an index the call resolves and the
    entries appear in order as [{index, error}], the error carrying the
    entry's raw message, with code [USER_NOT_DISABLED] when that message
    starts with [NOT_DISABLED] and [INTERNAL_ERROR] otherwise. *)
Theorem deleteUsers_error_mapping :
  forall (this : BaseAuthImpl.t) (uids : list string)
         (response : BatchDeleteAccountsResponse) (errs : list BatchDeleteErrorInfo)
         (t t' : Trace),
    AbstractAuthRequestHandler.deleteAccounts (BaseAuthImpl.authRequestHandler this)
      uids true t = (Fulfilled response, t') ->
    response_errors response = Some errs ->
    errs <> [] ->
    ((exists info, In info errs /\ err_index info = None) ->
     exists msg,
       BaseAuthImpl.deleteUsers this (an_array uids) t
         = (Rejected (mkFirebaseAuthError INTERNAL_ERROR msg), t')) /\
    ((forall info, In info errs -> err_index info <> None) ->
     exists r,
       BaseAuthImpl.deleteUsers this (an_array uids) t = (Fulfilled r, t') /\
       Forall2 mapsTo errs (errors r)).
Proof.
  intros this uids response errs t t' Hcall Herrs Hne.
  rewrite (deleteUsers_answered this uids response t t' Hcall).
  unfold errorsOf. rewrite Herrs.
  destruct errs as [| info errs]; [contradiction |]. split.
  - intros Hcorrupt. rewrite (map_toIndexError_corrupt _ Hcorrupt).
    eexists. reflexivity.
  - intros Hdefined.
    destruct (map_toIndexError_defined _ Hdefined) as (mapped & Hmap & Hall).
    rewrite Hmap. eexists. split; [reflexivity | exact Hall].
Qed.

Lemma deleteUsers_error_mapping_witness :
  (exists msg,
      BaseAuthImpl.deleteUsers Example.corruptAuth (an_array ["a"; "b"]) []
        = (Rejected (mkFirebaseAuthError INTERNAL_ERROR msg),
           [DeleteAccounts ["a"; "b"] true])) /\
  (exists r,
      BaseAuthImpl.deleteUsers Example.auth (an_array ["a"; "b"]) []
        = (Fulfilled r, [DeleteAccounts ["a"; "b"] true]) /\
      Forall2 mapsTo
        [ mkBatchDeleteErrorInfo (Some 1) (Some "NOT_DISABLED : Disable the account");
          mkBatchDeleteErrorInfo (Some 3) (Some "backend failure") ]
        (errors r)).
Proof.
  split.
  - apply (proj1 (deleteUsers_error_mapping Example.corruptAuth ["a"; "b"] _ _ [] _
                    eq_refl eq_refl ltac:(discriminate))).
    exists (mkBatchDeleteErrorInfo None (Some "NOT_DISABLED")).
    split; [right; left; reflexivity | reflexivity].
  - apply (proj2 (deleteUsers_error_mapping Example.auth ["a"; "b"] _ _ [] _
                    eq_refl eq_refl ltac:(discriminate))).
    intros info [<- | [<- | []]]; discriminate.
Defined.

(* ===================================================================== *)
(** ** Tenant options: top level keys *)
(* ===================================================================== *)

Lemma prefix_app (s r : string) : String.prefix s (s ++ r) = true.
Proof.
  induction s as [| a s IH]; simpl.
  - destruct r; reflexivity.
  - destruct (ascii_dec a a) as [_ | N]; [exact IH | contradiction].
Qed.

Lemma occurs_in_head (s r : string) : occurs_in s (s ++ r) = true.
Proof.
  pose proof (prefix_app s r) as P.
  destruct (s ++ r); cbn [occurs_in]; rewrite P; reflexivity.
Qed.

Lemma for_each_first_failure {A : Type} (check : A -> Result unit)
      (before : list A) (x : A) (after : list A) (e : FirebaseAuthError) :
  (forall y, In y before -> check y = Fulfilled tt) ->
  check x = Rejected e ->
  for_each check (before ++ x :: after) = Rejected e.
Proof.
  intros Hb Hx. induction before as [| y before IH]; simpl.
  - rewrite Hx. reflexivity.
  - rewrite (Hb y (or_introl eq_refl)). simpl. apply IH.
    intros z Hz. apply Hb. right. exact Hz.
Qed.

(** What the loop over the top level attributes does guarantee: the first
    key that is neither one of the four supported keys nor a name
    inherited from [Object.prototype] is reported with
    [INVALID_ARGUMENT], and the message names it. *)
Lemma validate_rejects_first_foreign_key
      isPhoneNumber template emailSignIn multiFactor
      (props : list (string * Js.value)) (createRequest : bool)
      (before : list string) (key : string) (after : list string) :
  map fst props = (before ++ key :: after)%list ->
  (forall k, In k before -> Js.in_literal k TenantUtils.validKeys = true) ->
  Js.in_literal key TenantUtils.validKeys = false ->
  exists e,
    TenantUtils.validate isPhoneNumber template emailSignIn multiFactor
      (Js.Obj props) createRequest = Rejected e /\
    code e = INVALID_ARGUMENT /\
    names_key e key = true.
Proof.
  intros Hkeys Hbefore Hkey.
  eexists. split; [| split].
  - unfold TenantUtils.validate. cbn [validator.isNonNullObject validator.isObject
      Js.is_null negb andb Js.keys].
    rewrite Hkeys.
    rewrite (for_each_first_failure (TenantUtils.checkKey createRequest) before key after
               (mkFirebaseAuthError INVALID_ARGUMENT
                  (Some (Js.quoted key ++ " is not a valid "
                         ++ TenantUtils.label createRequest ++ " parameter.")))).
    + reflexivity.
    + intros k Hk. unfold TenantUtils.checkKey. rewrite (Hbefore k Hk). reflexivity.
    + unfold TenantUtils.checkKey. rewrite Hkey. reflexivity.
  - reflexivity.
  - unfold names_key. cbn [message]. apply occurs_in_head.
Qed.

(** C9 does not hold of the code: [toString] is outside the whitelist, yet
    an options object whose only key is [toString] passes validation, for
    a create request and for an update request alike.  The membership test
    [key in validKeys] also accepts every name that the literal inherits
    from [Object.prototype]. *)
Theorem validate_accepts_inherited_name :
  forall isPhoneNumber template emailSignIn multiFactor (createRequest : bool),
    whitelisted "toString" = false /\
    TenantUtils.validate isPhoneNumber template emailSignIn multiFactor
      (Js.Obj [("toString", Js.Num 1)]) createRequest = Fulfilled tt.
Proof.
  intros isPhoneNumber template emailSignIn multiFactor createRequest.
  split; reflexivity.
Qed.

(** The ninth testable property of the specification: [{bogusKey: 1}] is
    turned down, and the message names [bogusKey]. *)
Example validate_bogusKey :
  exists e,
    TenantUtils.validate Example.isPhoneNumber Example.template
      Example.buildServerRequest Example.buildServerRequest
      (Js.Obj [("bogusKey", Js.Num 1)]) true = Rejected e /\
    code e = INVALID_ARGUMENT /\
    names_key e "bogusKey" = true.
Proof.
  apply (validate_rejects_first_foreign_key _ _ _ _ _ true [] "bogusKey" []).
  - reflexivity.
  - intros k [].
  - reflexivity.
Qed.

(** The tenth testable property: a five digit code is not accepted. *)
Example validateTestPhoneNumbers_short_code :
  validateTestPhoneNumbers Example.isPhoneNumber Example.template
    (Js.Obj [("+15551234567", Js.Str "12345")])
  = Rejected (mkFirebaseAuthError INVALID_TESTING_PHONE_NUMBER
                (Some (Js.quoted "12345" ++ " is not a valid 6 digit code string."))).
Proof. reflexivity. Qed.

(** The fifth testable property: five uids, two reported failures. *)
Example deleteUsers_five_uids :
  fst (BaseAuthImpl.deleteUsers Example.auth (an_array ["a"; "b"; "c"; "d"; "e"]) [])
  = Fulfilled (mkDeleteUsersResult 2 3
       [ mkFirebaseArrayIndexError 1
           (mkFirebaseAuthError USER_NOT_DISABLED (Some "NOT_DISABLED : Disable the account"));
         mkFirebaseArrayIndexError 3
           (mkFirebaseAuthError INTERNAL_ERROR (Some "backend failure")) ]).
Proof. reflexivity. Qed.

(* ===================================================================== *)
(** ** Verification: what reaches the directory, and which error wins *)
(* ===================================================================== *)

(** X1. A token that the verifier turns down is rejected with the
    verifier's own error and nothing is sent to the account directory,
    whether or not the revocation check was asked for, on the base
    instance and on a tenant-bound instance, for ID tokens and session
    cookies alike. *)
Theorem decode_failure_stays_local :
  forall UR DG (this : TenantAwareAuthImpl.t) (kind : TokenKind) (token : string)
         (checkRevoked : bool) (e : FirebaseAuthError) (t : Trace),
    FirebaseTokenVerifier.verifyJWT
      (verifierOf (TenantAwareAuthImpl.super this) kind) token = Rejected e ->
    baseVerify UR DG (TenantAwareAuthImpl.super this) kind token checkRevoked t
      = (Rejected e, t) /\
    tenantVerify UR DG this kind token checkRevoked t = (Rejected e, t).
Proof.
  intros UR DG this kind token checkRevoked e t H.
  assert (B : baseVerify UR DG (TenantAwareAuthImpl.super this) kind token checkRevoked t
              = (Rejected e, t)).
  { rewrite baseVerify_unfold. unfold then_, settle. rewrite H. reflexivity. }
  split; [exact B |].
  rewrite tenantVerify_unfold. apply (then_rejected _ _ _ _ _ B).
Qed.

Lemma decode_failure_stays_local_witness :
  BaseAuthImpl.verifySessionCookie Example.UserRecord_new Example.Date_getTime
    Example.auth "forged" true []
  = (Rejected (mkFirebaseAuthError INVALID_ID_TOKEN None), []) /\
  TenantAwareAuthImpl.verifySessionCookie Example.UserRecord_new Example.Date_getTime
    Example.tenantAuth "forged" true []
  = (Rejected (mkFirebaseAuthError INVALID_ID_TOKEN None), []).
Proof.
  apply (decode_failure_stays_local Example.UserRecord_new Example.Date_getTime
           Example.tenantAuth SessionCookie "forged" true).
  reflexivity.
Defined.

(** X2. The tenant check comes last and is local: a tenant-bound
    verification sends to the directory exactly what the inherited
    verification sends, and whenever the inherited verification is
    rejected (a revoked token, a failed lookup) the tenant-bound one is
    rejected with the same error, never with [MISMATCHING_TENANT_ID]
    instead. *)
Theorem tenant_check_is_last :
  forall UR DG (this : TenantAwareAuthImpl.t) (kind : TokenKind) (token : string)
         (checkRevoked : bool) (t : Trace),
    snd (tenantVerify UR DG this kind token checkRevoked t)
      = snd (baseVerify UR DG (TenantAwareAuthImpl.super this) kind token checkRevoked t) /\
    (forall e t',
        baseVerify UR DG (TenantAwareAuthImpl.super this) kind token checkRevoked t
          = (Rejected e, t') ->
        tenantVerify UR DG this kind token checkRevoked t = (Rejected e, t')).
Proof.
  intros UR DG this kind token checkRevoked t. rewrite tenantVerify_unfold.
  split.
  - unfold then_.
    destruct (baseVerify UR DG (TenantAwareAuthImpl.super this) kind token checkRevoked t)
      as [[d | e] t'].
    + destruct (TenantAwareAuthImpl.tenant_differs this d); reflexivity.
    + reflexivity.
  - intros e t' H. apply (then_rejected _ _ _ _ _ H).
Qed.

Lemma tenant_check_is_last_witness :
  TenantAwareAuthImpl.verifyIdToken Example.UserRecord_new Example.Date_getTime
    (TenantAwareAuthImpl.mk Example.auth "T2") "token-of-T1" true []
  = (Rejected (mkFirebaseAuthError ID_TOKEN_REVOKED None), [GetAccountByUid "alice"]).
Proof.
  apply (proj2 (tenant_check_is_last Example.UserRecord_new Example.Date_getTime
                  (TenantAwareAuthImpl.mk Example.auth "T2") IdToken "token-of-T1" true [])).
  reflexivity.
Defined.

(** X3. With the revocation check on and a token that decodes, the only
    traffic with the directory is the handler's lookup of the token's
    [sub]; and when fetching that user fails (the account is gone, the
    record cannot be built) the verification is rejected with that very
    error, not with the revocation error. *)
Theorem revocation_check_lookup_only :
  forall UR DG (this : BaseAuthImpl.t) (kind : TokenKind) (token : string)
         (d : DecodedIdToken) (t : Trace),
    FirebaseTokenVerifier.verifyJWT (verifierOf this kind) token = Fulfilled d ->
    snd (baseVerify UR DG this kind token true t)
      = snd (AbstractAuthRequestHandler.getAccountInfoByUid
               (BaseAuthImpl.authRequestHandler this) (sub d) t) /\
    (forall e t',
        BaseAuthImpl.getUser UR this (sub d) t = (Rejected e, t') ->
        baseVerify UR DG this kind token true t = (Rejected e, t')).
Proof.
  intros UR DG this kind token d t H.
  rewrite baseVerify_unfold.
  assert (Hrun : forall k : DecodedIdToken -> Promise DecodedIdToken,
             then_ (settle (FirebaseTokenVerifier.verifyJWT (verifierOf this kind) token)) k t
             = k d t).
  { intros k. unfold then_, settle. rewrite H. reflexivity. }
  rewrite Hrun. cbn [negb]. split.
  - unfold BaseAuthImpl.verifyDecodedJWTNotRevoked, BaseAuthImpl.getUser, then_, settle.
    destruct (AbstractAuthRequestHandler.getAccountInfoByUid _ (sub d) t) as [[r | e] t1];
      [| reflexivity].
    destruct (UR _) as [user | e]; [| reflexivity].
    destruct (BaseAuthImpl.truthy_string (tokensValidAfterTime user)); [| reflexivity].
    cbv zeta. destruct (BaseAuthImpl.number_lt _ _); reflexivity.
  - intros e t' G. unfold BaseAuthImpl.verifyDecodedJWTNotRevoked.
    apply (then_rejected _ _ _ _ _ G).
Qed.

Lemma revocation_check_lookup_only_witness :
  BaseAuthImpl.verifyIdToken Example.UserRecord_new Example.Date_getTime
    Sample.emptyAuth "token-of-T1" true []
  = (Rejected (mkFirebaseAuthError (OTHER "user-not-found") None), [GetAccountByUid "alice"]).
Proof.
  apply (proj2 (revocation_check_lookup_only Example.UserRecord_new Example.Date_getTime
                  Sample.emptyAuth IdToken "token-of-T1"
                  (Example.claimsOf "alice" 1000 (Some "T1")) [] eq_refl)).
  reflexivity.
Defined.

(** X4. On a tenant-bound instance a session cookie is only ever minted
    for an ID token that decodes with this instance's tenant claim:
    whenever [createSessionCookie] resolves, the token is non-empty, the
    verifier accepted it, its [firebase.tenant] is the instance's tenant
    id, and the inherited [createSessionCookie] on the same arguments
    resolves with the same cookie. *)
Theorem tenant_cookie_only_for_own_tenant :
  forall UR DG (this : TenantAwareAuthImpl.t) (idToken : string)
         (sessionCookieOptions : Js.value) (cookie : string) (t t' : Trace),
    TenantAwareAuthImpl.createSessionCookie UR DG this idToken sessionCookieOptions t
      = (Fulfilled cookie, t') ->
    idToken <> EmptyString /\
    (exists d,
        FirebaseTokenVerifier.verifyJWT
          (BaseAuthImpl.idTokenVerifier (TenantAwareAuthImpl.super this)) idToken
          = Fulfilled d /\
        tenant (firebase d) = Some (TenantAwareAuthImpl.tenantId this)) /\
    BaseAuthImpl.createSessionCookie (TenantAwareAuthImpl.super this) idToken
      sessionCookieOptions t = (Fulfilled cookie, t').
Proof.
  intros UR DG this idToken opts cookie t t' H.
  unfold TenantAwareAuthImpl.createSessionCookie in H.
  destruct (negb (validator.isNonEmptyString (Js.Str idToken))) eqn:Hid;
    [discriminate H |].
  destruct (negb (validator.isNonNullObject opts) ||
            negb (validator.isNumber (Js.get opts "expiresIn"))) eqn:Hopts;
    [discriminate H |].
  unfold then_ in H. rewrite tenant_verifyIdToken_unchecked in H.
  split; [| split].
  - intros ->. discriminate Hid.
  - destruct (FirebaseTokenVerifier.verifyJWT _ idToken) as [d | e]; [| discriminate H].
    destruct (TenantAwareAuthImpl.tenant_differs this d) eqn:E; [discriminate H |].
    exists d. split; [reflexivity | apply tenant_differs_spec; exact E].
  - destruct (FirebaseTokenVerifier.verifyJWT _ idToken) as [d | e]; [| discriminate H].
    destruct (TenantAwareAuthImpl.tenant_differs this d); [discriminate H | exact H].
Qed.

Lemma tenant_cookie_only_for_own_tenant_witness :
  "token-of-T1" <> EmptyString /\
  (exists d,
      FirebaseTokenVerifier.verifyJWT Example.verifier "token-of-T1" = Fulfilled d /\
      tenant (firebase d) = Some "T1") /\
  BaseAuthImpl.createSessionCookie Example.auth "token-of-T1"
    (Js.Obj [("expiresIn", Js.Num 300000)]) []
  = (Fulfilled "cookie:token-of-T1", [CreateSessionCookie "token-of-T1" (Js.Num 300000)]).
Proof.
  apply (tenant_cookie_only_for_own_tenant Example.UserRecord_new Example.Date_getTime
           Example.tenantAuth "token-of-T1" (Js.Obj [("expiresIn", Js.Num 300000)])).
  reflexivity.
Defined.

(* ===================================================================== *)
(** ** Batch operations: edge cases *)
(* ===================================================================== *)

Lemma filter_keeps_all {A : Type} (f : A -> bool) (l : list A) :
  (forall x, In x l -> f x = true) -> filter f l = l.
Proof.
  induction l as [| a l IH]; intros H; simpl.
  - reflexivity.
  - rewrite (H a (or_introl eq_refl)). f_equal. apply IH.
    intros x Hx. apply H. right. exact Hx.
Qed.

Lemma map_or_throw_first_failure {A B : Type} (f : A -> Result B)
      (before : list A) (bad : A) (after : list A) (e : FirebaseAuthError) :
  (forall x, In x before -> exists y, f x = Fulfilled y) ->
  f bad = Rejected e ->
  map_or_throw f (before ++ bad :: after) = Rejected e.
Proof.
  intros Hb Hbad. induction before as [| x before IH]; simpl.
  - rewrite Hbad. reflexivity.
  - destruct (Hb x (or_introl eq_refl)) as (y & Hy). rewrite Hy. simpl.
    rewrite IH; [reflexivity |]. intros z Hz. apply Hb. right. exact Hz.
Qed.

Lemma map_or_throw_length {A B : Type} (f : A -> Result B) (xs : list A) (ys : list B) :
  map_or_throw f xs = Fulfilled ys -> List.length ys = List.length xs.
Proof.
  revert ys. induction xs as [| x xs IH]; simpl; intros ys H.
  - inversion H. reflexivity.
  - destruct (f x) as [y | e]; simpl in H; [| discriminate H].
    destruct (map_or_throw f xs) as [ys' | e]; simpl in H; [| discriminate H].
    inversion H. simpl. f_equal. apply IH. reflexivity.
Qed.

(** X5. When the directory answers a batch lookup without any account
    (no [users] field, or an empty one), [getUsers] resolves with no users
    and reports every requested identifier as not found, in request order
    and with repetitions kept. *)
Theorem getUsers_nothing_returned :
  forall UR (this : BaseAuthImpl.t) (identifiers : list UserIdentifier)
         (response : GetAccountInfoByIdentifiersResponse) (t t' : Trace),
    AbstractAuthRequestHandler.getAccountInfoByIdentifiers
      (BaseAuthImpl.authRequestHandler this) identifiers t = (Fulfilled response, t') ->
    batch_users response = None \/ batch_users response = Some [] ->
    BaseAuthImpl.getUsers UR this (an_array identifiers) t
      = (Fulfilled (mkGetUsersResult [] identifiers), t').
Proof.
  intros UR this identifiers response t t' Hcall Hnone.
  unfold BaseAuthImpl.getUsers. rewrite (then_fulfilled _ _ _ _ _ Hcall).
  assert (Hconv : match batch_users response with
                  | Some us => map_or_throw UR us
                  | None => Fulfilled []
                  end = Fulfilled []).
  { destruct Hnone as [-> | ->]; reflexivity. }
  rewrite Hconv. unfold then_, settle, resolve.
  rewrite filter_keeps_all; [reflexivity |]. intros id _. reflexivity.
Qed.

Lemma getUsers_nothing_returned_witness :
  BaseAuthImpl.getUsers Example.UserRecord_new Sample.emptyAuth
    (an_array (Example.wanted ++ Example.wanted)%list) []
  = (Fulfilled (mkGetUsersResult [] (Example.wanted ++ Example.wanted)%list),
     [GetAccountsByIdentifiers (Example.wanted ++ Example.wanted)%list]).
Proof.
  apply (getUsers_nothing_returned Example.UserRecord_new Sample.emptyAuth
           (Example.wanted ++ Example.wanted)%list
           (mkGetAccountInfoByIdentifiersResponse None) []
           [GetAccountsByIdentifiers (Example.wanted ++ Example.wanted)%list] eq_refl).
  left. reflexivity.
Defined.

(** X6. A batch lookup is all or nothing on the conversion of the
    returned accounts: if the [UserRecord] constructor throws on one of
    them, [getUsers] is rejected with the error of the first such account
    and no partial result is produced, however many accounts around it are
    fine. *)
Theorem getUsers_conversion_failure :
  forall UR (this : BaseAuthImpl.t) (identifiers : list UserIdentifier)
         (response : GetAccountInfoByIdentifiersResponse)
         (before : list Js.value) (bad : Js.value) (after : list Js.value)
         (e : FirebaseAuthError) (t t' : Trace),
    AbstractAuthRequestHandler.getAccountInfoByIdentifiers
      (BaseAuthImpl.authRequestHandler this) identifiers t = (Fulfilled response, t') ->
    batch_users response = Some (before ++ bad :: after)%list ->
    (forall raw, In raw before -> exists account, UR raw = Fulfilled account) ->
    UR bad = Rejected e ->
    BaseAuthImpl.getUsers UR this (an_array identifiers) t = (Rejected e, t').
Proof.
  intros UR this identifiers response before bad after e t t' Hcall Husers Hbefore Hbad.
  unfold BaseAuthImpl.getUsers. rewrite (then_fulfilled _ _ _ _ _ Hcall).
  rewrite Husers, (map_or_throw_first_failure UR before bad after e Hbefore Hbad).
  reflexivity.
Qed.

Lemma getUsers_conversion_failure_witness :
  BaseAuthImpl.getUsers Example.UserRecord_new Sample.brokenAuth
    (an_array [UidIdentifier "alice"]) []
  = (Rejected (mkFirebaseAuthError INTERNAL_ERROR
                 (Some "INTERNAL ASSERT FAILED: Invalid user response")),
     [GetAccountsByIdentifiers [UidIdentifier "alice"]]).
Proof.
  apply (getUsers_conversion_failure Example.UserRecord_new Sample.brokenAuth
           [UidIdentifier "alice"]
           (mkGetAccountInfoByIdentifiersResponse
              (Some [Example.alice; Js.Obj []; Example.bob]))
           [Example.alice] (Js.Obj []) [Example.bob] _ []
           [GetAccountsByIdentifiers [UidIdentifier "alice"]]
           eq_refl eq_refl).
  - intros raw [<- | []]. eexists. reflexivity.
  - reflexivity.
Defined.

(** X7. In every result of [deleteUsers], [failureCount] is the length of
    the [errors] list of that result. *)
Theorem deleteUsers_failureCount_counts_errors :
  forall (this : BaseAuthImpl.t) (uids : list string) (r : DeleteUsersResult)
         (t t' : Trace),
    BaseAuthImpl.deleteUsers this (an_array uids) t = (Fulfilled r, t') ->
    failureCount r = Z.of_nat (List.length (errors r)).
Proof.
  intros this uids r t t' H.
  destruct (deleteUsers_resolved_inv this uids r t t' H) as (response & Hcall).
  rewrite (deleteUsers_answered this uids response t t' Hcall) in H.
  destruct (errorsOf response) as [| info errs].
  - inversion H. reflexivity.
  - destruct (map_or_throw BaseAuthImpl.toIndexError (info :: errs)) as [mapped | e] eqn:M;
      unfold and_then in H; [| discriminate H].
    apply map_or_throw_length in M.
    assert (Hr : r = mkDeleteUsersResult
                       (Z.of_nat (List.length (info :: errs)))
                       (Z.of_nat (List.length uids)
                        - Z.of_nat (List.length (info :: errs)))
                       mapped) by congruence.
    rewrite Hr. cbn [failureCount errors]. rewrite M. reflexivity.
Qed.

Lemma deleteUsers_failureCount_counts_errors_witness :
  2 = Z.of_nat (List.length
        [ mkFirebaseArrayIndexError 1
            (mkFirebaseAuthError USER_NOT_DISABLED (Some "NOT_DISABLED : Disable the account"));
          mkFirebaseArrayIndexError 3
            (mkFirebaseAuthError INTERNAL_ERROR (Some "backend failure")) ]).
Proof.
  apply (deleteUsers_failureCount_counts_errors Example.auth ["a"; "b"; "c"; "d"; "e"]
           (mkDeleteUsersResult 2 3 _) [] [DeleteAccounts ["a"; "b"; "c"; "d"; "e"] true]).
  reflexivity.
Defined.


(* ===================================================================== *)
(** ** createUser *)
(* ===================================================================== *)

Lemma createUser_unfold UR this requests properties t :
  BaseAuth.createUser UR this requests properties t =
  match then_ (AccountRequests.createNewAccount requests properties)
              (BaseAuthImpl.getUser UR this) t with
  | (Fulfilled user, t') => (Fulfilled user, t')
  | (Rejected e, t') =>
      (Rejected (if is_user_not_found e
                 then mkFirebaseAuthError INTERNAL_ERROR
                        (Some "Unable to create the user record provided.")
                 else e), t')
  end.
Proof.
  unfold BaseAuth.createUser, catch_.
  destruct (then_ _ _ t) as [[user | e] t']; [reflexivity |].
  destruct (is_user_not_found e); reflexivity.
Qed.

(** X8. [createUser] never fails with [auth/user-not-found]: whatever the
    request handler and the record constructor do, the error of a rejected
    [createUser] has another code. *)
Theorem createUser_never_user_not_found :
  forall UR (this : BaseAuthImpl.t) (requests : AccountRequests.t)
         (properties : Js.value) (e : FirebaseAuthError) (t t' : Trace),
    BaseAuth.createUser UR this requests properties t = (Rejected e, t') ->
    is_user_not_found e = false.
Proof.
  intros UR this requests properties e t t' H.
  rewrite createUser_unfold in H.
  destruct (then_ _ _ t) as [[user | e0] t0]; [discriminate H |].
  destruct (is_user_not_found e0) eqn:E; inversion H; subst.
  - reflexivity.
  - exact E.
Qed.

Lemma createUser_never_user_not_found_witness :
  is_user_not_found
    (mkFirebaseAuthError INTERNAL_ERROR (Some "Unable to create the user record provided."))
  = false.
Proof.
  apply (createUser_never_user_not_found Example.UserRecord_new Sample.emptyAuth
           Sample.requests (Js.Obj [("localId", Js.Str "frank")]) _ []
           [GetAccountByUid "frank"]).
  reflexivity.
Defined.

(** X9. How [createUser] settles once the account is created with uid
    [uid]: it fetches that uid; the fetched record is the result; a fetch
    that fails with [auth/user-not-found] is reported as [INTERNAL_ERROR]
    ("Unable to create the user record provided."); any other fetch error
    is passed on unchanged. *)
Theorem createUser_after_creation :
  forall UR (this : BaseAuthImpl.t) (requests : AccountRequests.t)
         (properties : Js.value) (uid : string) (t t1 : Trace),
    AccountRequests.createNewAccount requests properties t = (Fulfilled uid, t1) ->
    (forall user t2,
        BaseAuthImpl.getUser UR this uid t1 = (Fulfilled user, t2) ->
        BaseAuth.createUser UR this requests properties t = (Fulfilled user, t2)) /\
    (forall e t2,
        BaseAuthImpl.getUser UR this uid t1 = (Rejected e, t2) ->
        is_user_not_found e = true ->
        BaseAuth.createUser UR this requests properties t
          = (Rejected (mkFirebaseAuthError INTERNAL_ERROR
                         (Some "Unable to create the user record provided.")), t2)) /\
    (forall e t2,
        BaseAuthImpl.getUser UR this uid t1 = (Rejected e, t2) ->
        is_user_not_found e = false ->
        BaseAuth.createUser UR this requests properties t = (Rejected e, t2)).
Proof.
  intros UR this requests properties uid t t1 Hcreate.
  rewrite createUser_unfold, (then_fulfilled _ _ _ _ _ Hcreate).
  split; [| split].
  - intros user t2 H. rewrite H. reflexivity.
  - intros e t2 H N. rewrite H, N. reflexivity.
  - intros e t2 H N. rewrite H, N. reflexivity.
Qed.

Lemma createUser_after_creation_witness :
  BaseAuth.createUser Example.UserRecord_new Example.auth Sample.requests
    (Js.Obj [("localId", Js.Str "bob")]) []
  = (Fulfilled (mkUserRecord "bob" None (Some "+15551234") [] None),
     [GetAccountByUid "bob"]) /\
  BaseAuth.createUser Example.UserRecord_new Sample.emptyAuth Sample.requests
    (Js.Obj [("localId", Js.Str "frank")]) []
  = (Rejected (mkFirebaseAuthError INTERNAL_ERROR
                 (Some "Unable to create the user record provided.")),
     [GetAccountByUid "frank"]).
Proof.
  split.
  - apply (proj1 (createUser_after_creation Example.UserRecord_new Example.auth
                    Sample.requests (Js.Obj [("localId", Js.Str "bob")]) "bob" [] []
                    eq_refl)).
    reflexivity.
  - apply (proj1 (proj2 (createUser_after_creation Example.UserRecord_new Sample.emptyAuth
                           Sample.requests (Js.Obj [("localId", Js.Str "frank")])
                           "frank" [] [] eq_refl))
                 (mkFirebaseAuthError (OTHER "user-not-found") None)).
    + reflexivity.
    + reflexivity.
Defined.

(* ===================================================================== *)
(** ** Provider configuration: dispatch on the provider id *)
(* ===================================================================== *)

(** X10. A provider id that starts with neither [oidc.] nor [saml.] is
    turned down with [INVALID_PROVIDER_ID] by all four operations, and
    nothing is sent to the directory: [getProviderConfig],
    [deleteProviderConfig], [updateProviderConfig] (given a configuration
    object) and [createProviderConfig] (given a configuration object that
    carries this id). *)
Theorem unknown_provider_id_rejected :
  forall (this : BaseAuthImpl.t) (requests : AccountRequests.t)
         (providerId : string) (config : Js.value) (t : Trace),
    String.prefix "oidc." providerId = false ->
    String.prefix "saml." providerId = false ->
    validator.isNonNullObject config = true ->
    BaseAuth.getProviderConfig requests providerId t
      = (Rejected (mkFirebaseAuthError INVALID_PROVIDER_ID None), t) /\
    BaseAuth.deleteProviderConfig requests providerId t
      = (Rejected (mkFirebaseAuthError INVALID_PROVIDER_ID None), t) /\
    BaseAuthImpl.updateProviderConfig this providerId config t
      = (Rejected (mkFirebaseAuthError INVALID_PROVIDER_ID None), t) /\
    (Js.get config "providerId" = Js.Str providerId ->
     BaseAuthImpl.createProviderConfig this config t
       = (Rejected (mkFirebaseAuthError INVALID_PROVIDER_ID None), t)).
Proof.
  intros this requests providerId config t Ho Hs Hc.
  unfold BaseAuth.getProviderConfig, BaseAuth.deleteProviderConfig,
    BaseAuthImpl.updateProviderConfig, BaseAuthImpl.createProviderConfig.
  rewrite Hc. cbn [negb OIDCConfig_isProviderId SAMLConfig_isProviderId].
  rewrite Ho, Hs. repeat split.
  intros Hid. rewrite Hid. cbn [OIDCConfig_isProviderId SAMLConfig_isProviderId].
  rewrite Ho, Hs. reflexivity.
Qed.

Lemma unknown_provider_id_rejected_witness :
  BaseAuth.getProviderConfig Sample.requests "facebook.com" []
    = (Rejected (mkFirebaseAuthError INVALID_PROVIDER_ID None), []) /\
  BaseAuth.deleteProviderConfig Sample.requests "facebook.com" []
    = (Rejected (mkFirebaseAuthError INVALID_PROVIDER_ID None), []) /\
  BaseAuthImpl.updateProviderConfig Example.auth "facebook.com"
    (Js.Obj [("providerId", Js.Str "facebook.com")]) []
    = (Rejected (mkFirebaseAuthError INVALID_PROVIDER_ID None), []) /\
  (Js.get (Js.Obj [("providerId", Js.Str "facebook.com")]) "providerId"
     = Js.Str "facebook.com" ->
   BaseAuthImpl.createProviderConfig Example.auth
     (Js.Obj [("providerId", Js.Str "facebook.com")]) []
     = (Rejected (mkFirebaseAuthError INVALID_PROVIDER_ID None), [])).
Proof.
  apply (unknown_provider_id_rejected Example.auth Sample.requests "facebook.com"
           (Js.Obj [("providerId", Js.Str "facebook.com")]) []);
    reflexivity.
Defined.

(** X11. The configuration that [getProviderConfig] or
    [updateProviderConfig] resolves with has the kind of the provider id:
    an [OIDCConfig] built from the answer of the OIDC request when the id
    starts with [oidc.], a [SAMLConfig] built from the answer of the SAML
    request when it starts with [saml.]; no other id resolves. *)
Theorem provider_config_kind_follows_id :
  forall (this : BaseAuthImpl.t) (requests : AccountRequests.t)
         (providerId : string) (config : Js.value) (result : AuthProviderConfig)
         (t t' : Trace),
    (BaseAuth.getProviderConfig requests providerId t = (Fulfilled result, t') ->
     (String.prefix "oidc." providerId = true /\
      exists response,
        AccountRequests.getOAuthIdpConfig requests providerId t = (Fulfilled response, t') /\
        result = OIDCConfig response) \/
     (String.prefix "saml." providerId = true /\
      exists response,
        AccountRequests.getInboundSamlConfig requests providerId t
          = (Fulfilled response, t') /\
        result = SAMLConfig response)) /\
    (BaseAuthImpl.updateProviderConfig this providerId config t = (Fulfilled result, t') ->
     (String.prefix "oidc." providerId = true /\
      exists response,
        AbstractAuthRequestHandler.updateOAuthIdpConfig
          (BaseAuthImpl.authRequestHandler this) providerId config t
          = (Fulfilled response, t') /\
        result = OIDCConfig response) \/
     (String.prefix "saml." providerId = true /\
      exists response,
        AbstractAuthRequestHandler.updateInboundSamlConfig
          (BaseAuthImpl.authRequestHandler this) providerId config t
          = (Fulfilled response, t') /\
        result = SAMLConfig response)).
Proof.
  intros this requests providerId config result t t'. split.
  - unfold BaseAuth.getProviderConfig. cbn [OIDCConfig_isProviderId SAMLConfig_isProviderId].
    destruct (String.prefix "oidc." providerId) eqn:Ho.
    + intros H. apply then_inv in H. destruct H as (response & t0 & Hcall & Hres).
      inversion Hres; subst. left. split; [reflexivity |].
      exists response. split; [exact Hcall | reflexivity].
    + destruct (String.prefix "saml." providerId) eqn:Hs.
      * intros H. apply then_inv in H. destruct H as (response & t0 & Hcall & Hres).
        inversion Hres; subst. right. split; [reflexivity |].
        exists response. split; [exact Hcall | reflexivity].
      * intros H. discriminate H.
  - unfold BaseAuthImpl.updateProviderConfig.
    cbn [OIDCConfig_isProviderId SAMLConfig_isProviderId].
    destruct (negb (validator.isNonNullObject config)); [intros H; discriminate H |].
    destruct (String.prefix "oidc." providerId) eqn:Ho.
    + intros H. apply then_inv in H. destruct H as (response & t0 & Hcall & Hres).
      inversion Hres; subst. left. split; [reflexivity |].
      exists response. split; [exact Hcall | reflexivity].
    + destruct (String.prefix "saml." providerId) eqn:Hs.
      * intros H. apply then_inv in H. destruct H as (response & t0 & Hcall & Hres).
        inversion Hres; subst. right. split; [reflexivity |].
        exists response. split; [exact Hcall | reflexivity].
      * intros H. discriminate H.
Qed.

Lemma provider_config_kind_follows_id_witness :
  (String.prefix "oidc." "saml.acme" = true /\
   exists response,
     AccountRequests.getOAuthIdpConfig Sample.requests "saml.acme" []
       = (Fulfilled response, []) /\
     SAMLConfig (Js.Str "saml.acme") = OIDCConfig response) \/
  (String.prefix "saml." "saml.acme" = true /\
   exists response,
     AccountRequests.getInboundSamlConfig Sample.requests "saml.acme" []
       = (Fulfilled response, []) /\
     SAMLConfig (Js.Str "saml.acme") = SAMLConfig response).
Proof.
  apply (proj1 (provider_config_kind_follows_id Example.auth Sample.requests "saml.acme"
                  Js.Null (SAMLConfig (Js.Str "saml.acme")) [] [])).
  reflexivity.
Defined.

(** X12. [listProviderConfigs] needs a filter whose [type] is ["oidc"] or
    ["saml"]: with any other filter, a missing [type] or no filter at all
    ([undefined], [null]) it is rejected with [INVALID_ARGUMENT] and no
    listing request is made. *)
Theorem listProviderConfigs_needs_type :
  forall (requests : AccountRequests.t) (options : Js.value) (t : Trace),
    Js.get options "type" <> Js.Str "oidc" ->
    Js.get options "type" <> Js.Str "saml" ->
    exists msg,
      BaseAuth.listProviderConfigs requests options t
        = (Rejected (mkFirebaseAuthError INVALID_ARGUMENT msg), t).
Proof.
  intros requests options t Ho Hs.
  assert (O : is_text (Js.get options "type") "oidc" = false).
  { unfold is_text. destruct (Js.get options "type") as [| | | | | s | |]; try reflexivity.
    apply string_eqb_false_iff. intros E. apply Ho. rewrite E. reflexivity. }
  assert (S : is_text (Js.get options "type") "saml" = false).
  { unfold is_text. destruct (Js.get options "type") as [| | | | | s | |]; try reflexivity.
    apply string_eqb_false_iff. intros E. apply Hs. rewrite E. reflexivity. }
  unfold BaseAuth.listProviderConfigs. rewrite O, S, !andb_false_r.
  eexists. reflexivity.
Qed.

Lemma listProviderConfigs_needs_type_witness :
  exists msg,
    BaseAuth.listProviderConfigs Sample.requests Js.Undefined []
      = (Rejected (mkFirebaseAuthError INVALID_ARGUMENT msg), []).
Proof.
  apply (listProviderConfigs_needs_type Sample.requests Js.Undefined []); discriminate.
Defined.



(* ===================================================================== *)
(** ** Test phone numbers *)
(* ===================================================================== *)

Lemma for_each_ok_iff {A : Type} (check : A -> Result unit) (xs : list A) :
  for_each check xs = Fulfilled tt <-> forall x, In x xs -> check x = Fulfilled tt.
Proof.
  induction xs as [| a xs IH]; simpl.
  - split; [intros _ x [] | reflexivity].
  - destruct (check a) as [[] | e] eqn:E; simpl.
    + rewrite IH. split.
      * intros H x [<- | Hx]; [exact E | apply H; exact Hx].
      * intros H x Hx. apply H. right. exact Hx.
    + split; [discriminate |]. intros H.
      specialize (H a (or_introl eq_refl)). rewrite E in H. discriminate H.
Qed.

Lemma for_each_rejected {A : Type} (check : A -> Result unit) (xs : list A)
      (e : FirebaseAuthError) :
  for_each check xs = Rejected e -> exists x, In x xs /\ check x = Rejected e.
Proof.
  induction xs as [| a xs IH]; simpl; [discriminate |].
  destruct (check a) as [[] | e'] eqn:E; simpl; intros H.
  - destruct (IH H) as (x & Hx & Hc). exists x. split; [right; exact Hx | exact Hc].
  - inversion H; subst. exists a. split; [left; reflexivity | exact E].
Qed.

Lemma validateTestPhoneNumber_ok_iff isPhoneNumber template
      (testPhoneNumbers : Js.value) (phoneNumber : string) :
  validateTestPhoneNumber isPhoneNumber template testPhoneNumbers phoneNumber = Fulfilled tt
  <-> isPhoneNumber phoneNumber = true /\
      exists code, Js.get testPhoneNumbers phoneNumber = Js.Str code /\
                   six_digits code = true.
Proof.
  unfold validateTestPhoneNumber.
  destruct (isPhoneNumber phoneNumber); simpl.
  - destruct (Js.get testPhoneNumbers phoneNumber) as [| | b | n | | s | l | l]; simpl;
      try (split; [discriminate | intros (_ & c & H & _); discriminate H]).
    destruct (six_digits s) eqn:D; simpl.
    + split; [| reflexivity]. intros _. split; [reflexivity |].
      exists s. split; [reflexivity | exact D].
    + split; [discriminate |]. intros (_ & c & H & Hc). inversion H; subst.
      rewrite Hc in D. discriminate D.
  - split; [discriminate | intros (H & _); discriminate H].
Qed.

Lemma validateTestPhoneNumber_code isPhoneNumber template
      (testPhoneNumbers : Js.value) (phoneNumber : string) (e : FirebaseAuthError) :
  validateTestPhoneNumber isPhoneNumber template testPhoneNumbers phoneNumber = Rejected e ->
  code e = INVALID_TESTING_PHONE_NUMBER.
Proof.
  unfold validateTestPhoneNumber.
  destruct (negb (isPhoneNumber phoneNumber)).
  - intros H. inversion H. reflexivity.
  - destruct (negb (validator.isString _) || negb _); intros H; inversion H. reflexivity.
Qed.

(** X14. A map of test phone numbers is accepted exactly when it has at
    most ten entries, every key is a phone number for [isPhoneNumber], and
    every value is a string of exactly six decimal digits. *)
Theorem validateTestPhoneNumbers_accepts_iff :
  forall isPhoneNumber template (props : list (string * Js.value)),
    validateTestPhoneNumbers isPhoneNumber template (Js.Obj props) = Fulfilled tt
    <-> (List.length props <= 10)%nat /\
        forall phoneNumber, In phoneNumber (map fst props) ->
          isPhoneNumber phoneNumber = true /\
          exists code, Js.lookup phoneNumber props = Js.Str code /\
                       String.length code = 6%nat /\
                       forallb is_digit (list_ascii_of_string code) = true.
Proof.
  intros isPhoneNumber template props.
  unfold validateTestPhoneNumbers. cbn [validator.isObject negb Js.is_null Js.keys].
  rewrite length_map. unfold MAXIMUM_TEST_PHONE_NUMBERS.
  destruct (Nat.ltb_spec 10 (List.length props)) as [L | L].
  - split; [discriminate | intros (H & _); lia].
  - rewrite for_each_ok_iff. split.
    + intros H. split; [exact L |]. intros k Hk.
      apply H in Hk. apply validateTestPhoneNumber_ok_iff in Hk.
      destruct Hk as (P & c & G & D). split; [exact P |].
      exists c. split; [exact G |]. unfold six_digits in D.
      apply andb_true_iff in D. destruct D as [D1 D2].
      split; [apply Nat.eqb_eq; exact D1 | exact D2].
    + intros (_ & H) k Hk. apply validateTestPhoneNumber_ok_iff.
      destruct (H k Hk) as (P & c & G & D1 & D2). split; [exact P |].
      exists c. split; [exact G |]. unfold six_digits.
      apply andb_true_iff. split; [apply Nat.eqb_eq; exact D1 | exact D2].
Qed.

(** X15. For a map of test phone numbers the size limit is looked at
    first: with more than ten entries the error is
    [MAXIMUM_TEST_PHONE_NUMBER_EXCEEDED] whatever the entries are; with at
    most ten, any rejection has the code [INVALID_TESTING_PHONE_NUMBER]. *)
Theorem validateTestPhoneNumbers_errors :
  forall isPhoneNumber template (props : list (string * Js.value)),
    ((10 < List.length props)%nat ->
     validateTestPhoneNumbers isPhoneNumber template (Js.Obj props)
       = Rejected (mkFirebaseAuthError MAXIMUM_TEST_PHONE_NUMBER_EXCEEDED None)) /\
    ((List.length props <= 10)%nat ->
     forall e,
       validateTestPhoneNumbers isPhoneNumber template (Js.Obj props) = Rejected e ->
       code e = INVALID_TESTING_PHONE_NUMBER).
Proof.
  intros isPhoneNumber template props.
  unfold validateTestPhoneNumbers. cbn [validator.isObject negb Js.is_null Js.keys].
  rewrite length_map. unfold MAXIMUM_TEST_PHONE_NUMBERS.
  destruct (Nat.ltb_spec 10 (List.length props)) as [L | L]; split; intros H.
  - reflexivity.
  - lia.
  - lia.
  - intros e He. apply for_each_rejected in He. destruct He as (k & _ & Hk).
    apply validateTestPhoneNumber_code in Hk. exact Hk.
Qed.

Lemma validateTestPhoneNumbers_errors_witness :
  validateTestPhoneNumbers Example.isPhoneNumber Example.template
    (Js.Obj (repeat ("not a phone number", Js.Num 7) 11))
  = Rejected (mkFirebaseAuthError MAXIMUM_TEST_PHONE_NUMBER_EXCEEDED None) /\
  code (mkFirebaseAuthError INVALID_TESTING_PHONE_NUMBER
          (Some (Js.quoted "12345" ++ " is not a valid 6 digit code string.")))
  = INVALID_TESTING_PHONE_NUMBER.
Proof.
  split.
  - apply (proj1 (validateTestPhoneNumbers_errors Example.isPhoneNumber Example.template
                    (repeat ("not a phone number", Js.Num 7) 11))).
    rewrite repeat_length. apply Nat.lt_succ_diag_r.
  - apply (proj2 (validateTestPhoneNumbers_errors Example.isPhoneNumber Example.template
                    [("+15551234567", Js.Str "12345")])).
    + simpl. apply Nat.lt_0_succ.
    + reflexivity.
Defined.

Lemma validateTestPhoneNumbers_accepts_iff_witness :
  validateTestPhoneNumbers Example.isPhoneNumber Example.template
    (Js.Obj [("+15551234567", Js.Str "123456"); ("+15557654321", Js.Str "000000")])
  = Fulfilled tt.
Proof.
  apply (proj2 (validateTestPhoneNumbers_accepts_iff Example.isPhoneNumber Example.template
                  [("+15551234567", Js.Str "123456"); ("+15557654321", Js.Str "000000")])).
  split.
  - simpl. repeat constructor.
  - intros k [<- | [<- | []]]; (split; [reflexivity |]); eexists; repeat split; reflexivity.
Defined.

(* ===================================================================== *)
(** ** Tenant options: what validation accepts *)
(* ===================================================================== *)

Lemma and_then_unit_ok (r : Result unit) (k : unit -> Result unit) :
  and_then r k = Fulfilled tt <-> r = Fulfilled tt /\ k tt = Fulfilled tt.
Proof.
  destruct r as [[] | e]; simpl.
  - split; [intros H; split; [reflexivity | exact H] | intros [_ H]; exact H].
  - split; [discriminate | intros [H _]; discriminate H].
Qed.

Lemma translator_step_ok {A : Type} (f : Js.value -> Result A) (v : Js.value) :
  (if negb (Js.is_undefined v)
   then and_then (f v) (fun _ => Fulfilled tt) else Fulfilled tt) = Fulfilled tt
  <-> v = Js.Undefined \/ exists r, f v = Fulfilled r.
Proof.
  destruct v; simpl;
    try (destruct (f _) as [r | e]; simpl;
         [ split; [intros _; right; exists r; reflexivity | reflexivity]
         | split; [discriminate | intros [H | (r & H)]; discriminate H] ]).
  split; [intros _; left; reflexivity | reflexivity].
Qed.

(** What [TenantUtils.validate] accepts, check by check. *)
Lemma validate_accepts_spec isPhoneNumber template emailSignIn multiFactor
      (request : Js.value) (createRequest : bool) :
  TenantUtils.validate isPhoneNumber template emailSignIn multiFactor request createRequest
    = Fulfilled tt
  <-> validator.isNonNullObject request = true /\
      (forall key, In key (Js.keys request) ->
                   Js.in_literal key TenantUtils.validKeys = true) /\
      (Js.get request "displayName" = Js.Undefined \/
       validator.isNonEmptyString (Js.get request "displayName") = true) /\
      (Js.get request "emailSignInConfig" = Js.Undefined \/
       exists r, emailSignIn (Js.get request "emailSignInConfig") = Fulfilled r) /\
      match Js.get request "testPhoneNumbers" with
      | Js.Undefined => True
      | Js.Null => createRequest = false
      | numbers => validateTestPhoneNumbers isPhoneNumber template numbers = Fulfilled tt
      end /\
      (Js.get request "multiFactorConfig" = Js.Undefined \/
       exists r, multiFactor (Js.get request "multiFactorConfig") = Fulfilled r).
Proof.
  unfold TenantUtils.validate.
  destruct (validator.isNonNullObject request); cbn [negb];
    [| split; [discriminate | intros (H & _); discriminate H]].
  rewrite !and_then_unit_ok, for_each_ok_iff, !translator_step_ok.
  assert (K : forall key, TenantUtils.checkKey createRequest key = Fulfilled tt
                          <-> Js.in_literal key TenantUtils.validKeys = true).
  { intros key. unfold TenantUtils.checkKey.
    destruct (Js.in_literal key TenantUtils.validKeys); simpl.
    - split; reflexivity.
    - split; discriminate. }
  assert (D : (if negb (Js.is_undefined (Js.get request "displayName")) &&
                  negb (validator.isNonEmptyString (Js.get request "displayName"))
               then throw INVALID_ARGUMENT
                      (Some (Js.quoted (TenantUtils.label createRequest ++ ".displayName")
                             ++ " must be a valid non-empty string."))
               else Fulfilled tt) = Fulfilled tt
              <-> (Js.get request "displayName" = Js.Undefined \/
                   validator.isNonEmptyString (Js.get request "displayName") = true)).
  { destruct (Js.get request "displayName") as [| | b | n | | s | l | l]; simpl;
      try (split; [discriminate | intros [H | H]; discriminate H]).
    - split; [intros _; left; reflexivity | reflexivity].
    - destruct (String.eqb s EmptyString); simpl.
      + split; [discriminate | intros [H | H]; discriminate H].
      + split; [intros _; right; reflexivity | reflexivity]. }
  assert (P : (if negb (Js.is_undefined (Js.get request "testPhoneNumbers")) &&
                  negb (Js.is_null (Js.get request "testPhoneNumbers"))
               then validateTestPhoneNumbers isPhoneNumber template
                      (Js.get request "testPhoneNumbers")
               else if Js.is_null (Js.get request "testPhoneNumbers") && createRequest
               then throw INVALID_ARGUMENT
                      (Some (Js.quoted (TenantUtils.label createRequest ++ ".testPhoneNumbers")
                             ++ " must be a non-null object."))
               else Fulfilled tt) = Fulfilled tt
              <-> match Js.get request "testPhoneNumbers" with
                  | Js.Undefined => True
                  | Js.Null => createRequest = false
                  | numbers =>
                      validateTestPhoneNumbers isPhoneNumber template numbers = Fulfilled tt
                  end).
  { destruct (Js.get request "testPhoneNumbers"); simpl; try reflexivity.
    - split; [intros _; exact I | reflexivity].
    - destruct createRequest; simpl; split; try reflexivity; discriminate. }
  rewrite D, P. split.
  - intros (H1 & H2 & H3 & H4 & H5). split; [reflexivity |].
    split; [intros key Hk; apply K, H1, Hk |]. repeat split; assumption.
  - intros (_ & H1 & H2 & H3 & H4 & H5).
    split; [intros key Hk; apply K, H1, Hk |]. repeat split; assumption.
Qed.

Lemma in_literal_validKeys (key : string) :
  Js.in_literal key TenantUtils.validKeys = true ->
  whitelisted key = true \/ In key Js.object_prototype_names.
Proof.
  unfold Js.in_literal, whitelisted, TenantUtils.validKeys. intros H.
  apply orb_true_iff in H. destruct H as [H | H]; [left; exact H | right].
  unfold Js.mem in H. apply existsb_exists in H. destruct H as (x & Hx & E).
  apply String.eqb_eq in E. subst x. exact Hx.
Qed.

(** X16. What an accepted tenant options value looks like: it is an
    object; each of its keys is one of the four supported keys or a name
    inherited from [Object.prototype]; [displayName], when present, is a
    non-empty string; [testPhoneNumbers], when present and not [null], is
    an accepted map of test phone numbers; and on a create request
    [testPhoneNumbers] is not [null]. *)
Theorem validate_accepted_shape :
  forall isPhoneNumber template emailSignIn multiFactor
         (request : Js.value) (createRequest : bool),
    TenantUtils.validate isPhoneNumber template emailSignIn multiFactor request createRequest
      = Fulfilled tt ->
    (exists props, request = Js.Obj props) /\
    (forall key, In key (Js.keys request) ->
                 whitelisted key = true \/ In key Js.object_prototype_names) /\
    (Js.get request "displayName" = Js.Undefined \/
     exists name, Js.get request "displayName" = Js.Str name /\ name <> EmptyString) /\
    (Js.get request "testPhoneNumbers" <> Js.Undefined ->
     Js.get request "testPhoneNumbers" <> Js.Null ->
     validateTestPhoneNumbers isPhoneNumber template (Js.get request "testPhoneNumbers")
       = Fulfilled tt) /\
    (createRequest = true -> Js.get request "testPhoneNumbers" <> Js.Null).
Proof.
  intros isPhoneNumber template emailSignIn multiFactor request createRequest H.
  apply validate_accepts_spec in H. destruct H as (Hobj & Hkeys & Hname & _ & Hphones & _).
  split; [| split; [| split; [| split]]].
  - destruct request; try discriminate Hobj. eexists. reflexivity.
  - intros key Hk. apply in_literal_validKeys, Hkeys, Hk.
  - destruct Hname as [U | N]; [left; exact U | right].
    destruct (Js.get request "displayName") as [| | b | n | | s | l | l];
      try discriminate N.
    exists s. split; [reflexivity |]. intros ->. discriminate N.
  - intros U N. destruct (Js.get request "testPhoneNumbers");
      try exact Hphones; contradiction.
  - intros C N. rewrite N in Hphones. rewrite C in Hphones. discriminate Hphones.
Qed.

Lemma validate_accepted_shape_witness :
  (exists props, Sample.tenantOptions = Js.Obj props) /\
  (forall key, In key (Js.keys Sample.tenantOptions) ->
               whitelisted key = true \/ In key Js.object_prototype_names) /\
  (Js.get Sample.tenantOptions "displayName" = Js.Undefined \/
   exists name, Js.get Sample.tenantOptions "displayName" = Js.Str name /\
                name <> EmptyString) /\
  (Js.get Sample.tenantOptions "testPhoneNumbers" <> Js.Undefined ->
   Js.get Sample.tenantOptions "testPhoneNumbers" <> Js.Null ->
   validateTestPhoneNumbers Example.isPhoneNumber Example.template
     (Js.get Sample.tenantOptions "testPhoneNumbers") = Fulfilled tt) /\
  (true = true -> Js.get Sample.tenantOptions "testPhoneNumbers" <> Js.Null).
Proof.
  apply (validate_accepted_shape Example.isPhoneNumber Example.template
           (emailSignInRequest Sample.emailSignIn) Example.buildServerRequest
           Sample.tenantOptions true).
  reflexivity.
Defined.

(** X17. The [createRequest] flag decides acceptance only through a
    [null] [testPhoneNumbers]: a request whose [testPhoneNumbers] is not
    [null] is accepted as a create request exactly when it is accepted as
    an update request, and a request whose [testPhoneNumbers] is [null] is
    never accepted as a create request. *)
Theorem validate_flag_only_for_null :
  forall isPhoneNumber template emailSignIn multiFactor (request : Js.value),
    (Js.get request "testPhoneNumbers" <> Js.Null ->
     (TenantUtils.validate isPhoneNumber template emailSignIn multiFactor request true
        = Fulfilled tt
      <-> TenantUtils.validate isPhoneNumber template emailSignIn multiFactor request false
            = Fulfilled tt)) /\
    (Js.get request "testPhoneNumbers" = Js.Null ->
     TenantUtils.validate isPhoneNumber template emailSignIn multiFactor request true
       <> Fulfilled tt).
Proof.
  intros isPhoneNumber template emailSignIn multiFactor request. split.
  - intros N. rewrite !validate_accepts_spec.
    destruct (Js.get request "testPhoneNumbers"); try reflexivity. contradiction.
  - intros N H. apply validate_accepts_spec in H.
    destruct H as (_ & _ & _ & _ & H & _). rewrite N in H. discriminate H.
Qed.

Lemma validate_flag_only_for_null_witness :
  TenantUtils.validate Example.isPhoneNumber Example.template
    Example.buildServerRequest Example.buildServerRequest Sample.tenantOptions true
    = Fulfilled tt /\
  TenantUtils.validate Example.isPhoneNumber Example.template
    Example.buildServerRequest Example.buildServerRequest
    (Js.Obj [("testPhoneNumbers", Js.Null)]) true <> Fulfilled tt.
Proof.
  split.
  - apply (proj1 (validate_flag_only_for_null Example.isPhoneNumber Example.template
                    Example.buildServerRequest Example.buildServerRequest
                    Sample.tenantOptions)).
    + discriminate.
    + reflexivity.
  - apply (proj2 (validate_flag_only_for_null Example.isPhoneNumber Example.template
                    Example.buildServerRequest Example.buildServerRequest
                    (Js.Obj [("testPhoneNumbers", Js.Null)]))).
    reflexivity.
Defined.

(* ===================================================================== *)
(** ** Tenant options: the server request *)
(* ===================================================================== *)

Lemma lookup_set_same (props : list (string * Js.value)) (key : string) (v : Js.value) :
  Js.lookup key (set_property props key v) = v.
Proof.
  induction props as [| [k x] props IH]; simpl.
  - rewrite String.eqb_refl. reflexivity.
  - destruct (String.eqb k key) eqn:E; simpl; rewrite E; [reflexivity | exact IH].
Qed.

Lemma lookup_set_other (props : list (string * Js.value)) (key other : string)
      (v : Js.value) :
  other <> key ->
  Js.lookup other (set_property props key v) = Js.lookup other props.
Proof.
  intros N. induction props as [| [k x] props IH]; simpl.
  - destruct (String.eqb_spec key other) as [E | _]; [| reflexivity].
    subst. contradiction.
  - destruct (String.eqb_spec k key) as [E | _]; simpl.
    + subst k. destruct (String.eqb_spec key other) as [E | _]; [| reflexivity].
      subst. contradiction.
    + rewrite IH. reflexivity.
Qed.

Lemma emailSignInRequest_ok emailSignIn (v : Js.value) :
  (exists r, emailSignInRequest emailSignIn v = Fulfilled r) ->
  exists props, emailSignIn v = Fulfilled props.
Proof.
  unfold emailSignInRequest. intros (r & H).
  destruct (emailSignIn v) as [props | e]; [| discriminate H].
  exists props. reflexivity.
Qed.

Lemma buildServerRequest_accepted isPhoneNumber template emailSignIn multiFactor
      (tenantOptions : Js.value) (createRequest : bool) :
  TenantUtils.validate isPhoneNumber template (emailSignInRequest emailSignIn) multiFactor
    tenantOptions createRequest = Fulfilled tt ->
  TenantUtils_buildServerRequest isPhoneNumber template emailSignIn multiFactor
    tenantOptions createRequest
  = Fulfilled (Js.Obj (assembled emailSignIn multiFactor tenantOptions)).
Proof.
  intros V. unfold TenantUtils_buildServerRequest. rewrite V. cbn [and_then].
  apply validate_accepts_spec in V. destruct V as (_ & _ & _ & He & _ & Hm).
  assert (E : Js.is_undefined (Js.get tenantOptions "emailSignInConfig") = false ->
              exists props,
                emailSignIn (Js.get tenantOptions "emailSignInConfig") = Fulfilled props).
  { intros U. destruct He as [He | He].
    - rewrite He in U. discriminate U.
    - apply emailSignInRequest_ok. exact He. }
  assert (M : Js.is_undefined (Js.get tenantOptions "multiFactorConfig") = false ->
              exists m, multiFactor (Js.get tenantOptions "multiFactorConfig") = Fulfilled m).
  { intros U. destruct Hm as [Hm | Hm].
    - rewrite Hm in U. discriminate U.
    - exact Hm. }
  unfold assembled.
  destruct (Js.is_undefined (Js.get tenantOptions "emailSignInConfig")) eqn:Ue.
  - destruct (emailSignIn (Js.get tenantOptions "emailSignInConfig")) as [props | e];
      cbn [negb and_then];
      destruct (Js.is_undefined (Js.get tenantOptions "displayName"));
      (destruct (Js.is_undefined (Js.get tenantOptions "multiFactorConfig")) eqn:Um;
       [| destruct (M eq_refl) as (m & Hmf); rewrite Hmf ]);
      cbn [negb and_then];
      destruct (Js.is_undefined (Js.get tenantOptions "testPhoneNumbers"));
      reflexivity.
  - destruct (E eq_refl) as (props & Hp). rewrite Hp. cbn [negb and_then].
    destruct (Js.is_undefined (Js.get tenantOptions "displayName"));
      (destruct (Js.is_undefined (Js.get tenantOptions "multiFactorConfig")) eqn:Um;
       [| destruct (M eq_refl) as (m & Hmf); rewrite Hmf ]);
      cbn [negb and_then];
      destruct (Js.is_undefined (Js.get tenantOptions "testPhoneNumbers"));
      reflexivity.
Qed.

(** X18. [buildServerRequest] fails only through validation: it throws
    exactly when [validate] throws on the same arguments, with the same
    error, and it returns a request object whenever [validate] accepts. *)
Theorem buildServerRequest_fails_as_validate :
  forall isPhoneNumber template emailSignIn multiFactor
         (tenantOptions : Js.value) (createRequest : bool),
    (forall e,
        TenantUtils_buildServerRequest isPhoneNumber template emailSignIn multiFactor
          tenantOptions createRequest = Rejected e
        <-> TenantUtils.validate isPhoneNumber template (emailSignInRequest emailSignIn)
              multiFactor tenantOptions createRequest = Rejected e) /\
    (TenantUtils.validate isPhoneNumber template (emailSignInRequest emailSignIn)
       multiFactor tenantOptions createRequest = Fulfilled tt ->
     exists request,
       TenantUtils_buildServerRequest isPhoneNumber template emailSignIn multiFactor
         tenantOptions createRequest = Fulfilled (Js.Obj request)).
Proof.
  intros isPhoneNumber template emailSignIn multiFactor tenantOptions createRequest.
  split.
  - intros e.
    destruct (TenantUtils.validate isPhoneNumber template (emailSignInRequest emailSignIn)
                multiFactor tenantOptions createRequest) as [[] | e0] eqn:V.
    + rewrite (buildServerRequest_accepted _ _ _ _ _ _ V). split; discriminate.
    + unfold TenantUtils_buildServerRequest. rewrite V. cbn [and_then].
      split; intros H; inversion H; reflexivity.
  - intros V. eexists. apply buildServerRequest_accepted. exact V.
Qed.

Lemma buildServerRequest_fails_as_validate_witness :
  exists request,
    TenantUtils_buildServerRequest Example.isPhoneNumber Example.template
      Sample.emailSignIn Example.buildServerRequest Sample.tenantOptions true
    = Fulfilled (Js.Obj request).
Proof.
  apply (proj2 (buildServerRequest_fails_as_validate Example.isPhoneNumber Example.template
                  Sample.emailSignIn Example.buildServerRequest Sample.tenantOptions true)).
  reflexivity.
Defined.

Lemma buildServerRequest_result isPhoneNumber template emailSignIn multiFactor
      (tenantOptions : Js.value) (createRequest : bool) (request : Js.value) :
  TenantUtils_buildServerRequest isPhoneNumber template emailSignIn multiFactor
    tenantOptions createRequest = Fulfilled request ->
  TenantUtils.validate isPhoneNumber template (emailSignInRequest emailSignIn) multiFactor
    tenantOptions createRequest = Fulfilled tt /\
  request = Js.Obj (assembled emailSignIn multiFactor tenantOptions).
Proof.
  intros H.
  destruct (TenantUtils.validate isPhoneNumber template (emailSignInRequest emailSignIn)
              multiFactor tenantOptions createRequest) as [[] | e] eqn:V.
  - rewrite (buildServerRequest_accepted _ _ _ _ _ _ V) in H.
    inversion H. split; reflexivity.
  - unfold TenantUtils_buildServerRequest in H. rewrite V in H. discriminate H.
Qed.

Lemma is_undefined_false (v : Js.value) :
  v <> Js.Undefined -> Js.is_undefined v = false.
Proof. destruct v; try reflexivity. intros N. contradiction. Qed.

(** X19. The request built from tenant options carries the options'
    values: [displayName] as given; [testPhoneNumbers] as given, except
    that [null] (possible on an update only) becomes the empty object;
    [mfaConfig] is what the multi-factor translator returns for
    [multiFactorConfig]. *)
Theorem buildServerRequest_fields :
  forall isPhoneNumber template emailSignIn multiFactor
         (tenantOptions : Js.value) (createRequest : bool) (request : Js.value),
    TenantUtils_buildServerRequest isPhoneNumber template emailSignIn multiFactor
      tenantOptions createRequest = Fulfilled request ->
    (Js.get tenantOptions "displayName" <> Js.Undefined ->
     Js.get request "displayName" = Js.get tenantOptions "displayName") /\
    (Js.get tenantOptions "testPhoneNumbers" = Js.Null ->
     createRequest = false /\ Js.get request "testPhoneNumbers" = Js.Obj []) /\
    (Js.get tenantOptions "testPhoneNumbers" <> Js.Undefined ->
     Js.get tenantOptions "testPhoneNumbers" <> Js.Null ->
     Js.get request "testPhoneNumbers" = Js.get tenantOptions "testPhoneNumbers") /\
    (Js.get tenantOptions "multiFactorConfig" <> Js.Undefined ->
     multiFactor (Js.get tenantOptions "multiFactorConfig")
       = Fulfilled (Js.get request "mfaConfig")).
Proof.
  intros isPhoneNumber template emailSignIn multiFactor tenantOptions createRequest
         request H.
  apply buildServerRequest_result in H. destruct H as (V & ->).
  apply validate_accepts_spec in V. destruct V as (_ & _ & _ & _ & Hp & Hm).
  cbn [Js.get]. unfold assembled.
  set (r0 := match emailSignIn (Js.get tenantOptions "emailSignInConfig") with
             | Fulfilled props =>
                 if Js.is_undefined (Js.get tenantOptions "emailSignInConfig")
                 then [] else props
             | Rejected _ => []
             end).
  split; [| split; [| split]].
  - intros N. rewrite (is_undefined_false _ N).
    destruct (Js.is_undefined (Js.get tenantOptions "multiFactorConfig"));
      [| destruct (multiFactor _)];
      destruct (Js.is_undefined (Js.get tenantOptions "testPhoneNumbers"));
      rewrite ?lookup_set_other by discriminate; apply lookup_set_same.
  - intros N. rewrite N in Hp. split; [exact Hp |].
    rewrite N. cbn [Js.is_undefined or_empty_object Js.is_null orb].
    apply lookup_set_same.
  - intros U N. rewrite (is_undefined_false _ U), lookup_set_same.
    unfold or_empty_object. rewrite (is_undefined_false _ U).
    destruct (Js.get tenantOptions "testPhoneNumbers"); try reflexivity. contradiction.
  - intros N. destruct Hm as [Hm | (m & Hm)]; [contradiction |].
    rewrite (is_undefined_false _ N), Hm.
    destruct (Js.is_undefined (Js.get tenantOptions "testPhoneNumbers"));
      rewrite ?lookup_set_other by discriminate; rewrite lookup_set_same; reflexivity.
Qed.

Lemma buildServerRequest_fields_witness :
  Js.get (Js.Obj [ ("allowPasswordSignup", Js.Boolean true);
                   ("displayName", Js.Str "tenant-one");
                   ("testPhoneNumbers", Js.Obj [ ("+15551234567", Js.Str "123456") ]) ])
         "displayName"
  = Js.Str "tenant-one" /\
  Js.get (Js.Obj [ ("testPhoneNumbers", Js.Obj []) ]) "testPhoneNumbers" = Js.Obj [].
Proof.
  split.
  - apply (proj1 (buildServerRequest_fields Example.isPhoneNumber Example.template
                    Sample.emailSignIn Example.buildServerRequest
                    Sample.tenantOptions true _ eq_refl)).
    discriminate.
  - apply (proj1 (proj2 (buildServerRequest_fields Example.isPhoneNumber Example.template
                           Sample.emailSignIn Example.buildServerRequest
                           (Js.Obj [("testPhoneNumbers", Js.Null)]) false _ eq_refl))).
    reflexivity.
Defined.

(** X20. Absent options are left out of the request: without an
    [emailSignInConfig], the request built from tenant options has the key
    [displayName], [mfaConfig], [testPhoneNumbers] exactly when the
    options define [displayName], [multiFactorConfig], [testPhoneNumbers],
    in this order, and no other key. *)
Theorem buildServerRequest_omits_absent :
  forall isPhoneNumber template emailSignIn multiFactor
         (tenantOptions : Js.value) (createRequest : bool) (request : Js.value),
    TenantUtils_buildServerRequest isPhoneNumber template emailSignIn multiFactor
      tenantOptions createRequest = Fulfilled request ->
    Js.get tenantOptions "emailSignInConfig" = Js.Undefined ->
    Js.keys request =
      ((if Js.is_undefined (Js.get tenantOptions "displayName")
        then [] else ["displayName"]) ++
       (if Js.is_undefined (Js.get tenantOptions "multiFactorConfig")
        then [] else ["mfaConfig"]) ++
       (if Js.is_undefined (Js.get tenantOptions "testPhoneNumbers")
        then [] else ["testPhoneNumbers"]))%list.
Proof.
  intros isPhoneNumber template emailSignIn multiFactor tenantOptions createRequest
         request H U.
  apply buildServerRequest_result in H. destruct H as (V & ->).
  apply validate_accepts_spec in V. destruct V as (_ & _ & _ & _ & _ & Hm).
  cbn [Js.keys]. unfold assembled. rewrite U. cbn [Js.is_undefined].
  assert (R0 : match emailSignIn Js.Undefined with
               | Fulfilled _ => [] | Rejected _ => []
               end = @nil (string * Js.value))
    by (destruct (emailSignIn Js.Undefined); reflexivity).
  rewrite R0.
  destruct (Js.is_undefined (Js.get tenantOptions "displayName"));
    (destruct (Js.is_undefined (Js.get tenantOptions "multiFactorConfig")) eqn:Um;
     [| destruct Hm as [Hm | (m & Hm)];
        [rewrite Hm in Um; discriminate Um | rewrite Hm] ]);
    destruct (Js.is_undefined (Js.get tenantOptions "testPhoneNumbers"));
    reflexivity.
Qed.

Lemma buildServerRequest_omits_absent_witness :
  Js.keys (Js.Obj [ ("displayName", Js.Str "tenant-two"); ("testPhoneNumbers", Js.Obj []) ])
  = ["displayName"; "testPhoneNumbers"].
Proof.
  apply (buildServerRequest_omits_absent Example.isPhoneNumber Example.template
           Sample.emailSignIn Example.buildServerRequest
           (Js.Obj [ ("testPhoneNumbers", Js.Null); ("displayName", Js.Str "tenant-two") ])
           false _ eq_refl eq_refl).
Defined.

(* ===================================================================== *)
(** ** Tenant id of a resource name *)
(* ===================================================================== *)

Lemma strip_prefix_app (p s r : string) :
  strip_prefix p s = Some r <-> s = p ++ r.
Proof.
  revert s. induction p as [| a p IH]; intros s; simpl.
  - split; [intros H; inversion H; reflexivity | intros ->; reflexivity].
  - destruct s as [| b s]; [split; discriminate |].
    destruct (Ascii.eqb_spec a b) as [E | N].
    + subst b. rewrite IH. split; [intros ->; reflexivity | intros H; inversion H; reflexivity].
    + split; [discriminate | intros H; inversion H; congruence].
Qed.

Lemma strip_prefix_prefix (p s r : string) :
  strip_prefix p s = Some r -> String.prefix p s = true.
Proof.
  intros H. apply strip_prefix_app in H. subst s. apply prefix_app.
Qed.

Lemma tenants_match_here_spec (s tenantId : string) :
  tenants_match_here s = Some tenantId ->
  s = "/tenants/" ++ tenantId /\ single_line tenantId = true.
Proof.
  unfold tenants_match_here.
  destruct (strip_prefix "/tenants/" s) as [rest |] eqn:E; [| discriminate].
  destruct (single_line rest) eqn:L; [| discriminate].
  intros H. inversion H; subst. split; [apply strip_prefix_app; exact E | exact L].
Qed.

Lemma getTenantId_step (c : ascii) (s : string) :
  tenants_match_here (String c s) = None ->
  TenantUtils_getTenantIdFromResourceName (String c s)
  = TenantUtils_getTenantIdFromResourceName s.
Proof.
  intros H. cbn [TenantUtils_getTenantIdFromResourceName]. rewrite H. reflexivity.
Qed.

Lemma getTenantId_here (s tenantId : string) :
  tenants_match_here s = Some tenantId ->
  TenantUtils_getTenantIdFromResourceName s = Some tenantId.
Proof.
  intros H. destruct s; cbn [TenantUtils_getTenantIdFromResourceName];
    rewrite H; reflexivity.
Qed.

(** X21. Whatever [getTenantIdFromResourceName] returns is the text that
    follows an occurrence of [/tenants/] in the resource name and runs to
    its end, and it contains no line break. *)
Theorem getTenantId_is_a_suffix :
  forall (resourceName tenantId : string),
    TenantUtils_getTenantIdFromResourceName resourceName = Some tenantId ->
    (exists before, resourceName = before ++ "/tenants/" ++ tenantId) /\
    single_line tenantId = true.
Proof.
  induction resourceName as [| c s IH]; intros tenantId H.
  - discriminate H.
  - cbn [TenantUtils_getTenantIdFromResourceName] in H.
    destruct (tenants_match_here (String c s)) as [found |] eqn:M.
    + inversion H; subst found. apply tenants_match_here_spec in M.
      destruct M as (E & L). split; [exists EmptyString; exact E | exact L].
    + destruct (IH tenantId H) as ((before & E) & L).
      split; [| exact L]. exists (String c before). rewrite E. reflexivity.
Qed.

Lemma getTenantId_is_a_suffix_witness :
  (exists before, "projects/p1/tenants/t1" = before ++ "/tenants/" ++ "t1") /\
  single_line "t1" = true.
Proof.
  apply (getTenantId_is_a_suffix "projects/p1/tenants/t1" "t1"). reflexivity.
Defined.

(** X22. A resource name in which [/tenants/] does not occur has no
    tenant id: the result is [null]. *)
Theorem getTenantId_none_without_segment :
  forall (resourceName : string),
    occurs_in "/tenants/" resourceName = false ->
    TenantUtils_getTenantIdFromResourceName resourceName = None.
Proof.
  induction resourceName as [| c s IH]; intros H.
  - reflexivity.
  - cbn [occurs_in] in H. apply orb_false_iff in H. destruct H as [P O].
    rewrite getTenantId_step; [apply IH; exact O |].
    unfold tenants_match_here.
    destruct (strip_prefix "/tenants/" (String c s)) as [rest |] eqn:E; [| reflexivity].
    apply strip_prefix_prefix in E. rewrite E in P. discriminate P.
Qed.

Lemma getTenantId_none_without_segment_witness :
  TenantUtils_getTenantIdFromResourceName "projects/project1" = None.
Proof.
  apply (getTenantId_none_without_segment "projects/project1"). reflexivity.
Defined.

Lemma no_slash_cons (c : ascii) (s : string) :
  no_slash (String c s) = true -> c <> "/"%char /\ no_slash s = true.
Proof.
  unfold no_slash. cbn [list_ascii_of_string forallb]. intros H.
  apply andb_true_iff in H. destruct H as [H1 H2]. split; [| exact H2].
  intros ->. discriminate H1.
Qed.

Lemma strip_segment_mismatch (q p r : string) :
  no_slash q = true -> no_slash p = true -> p <> q ->
  strip_prefix (q ++ "/") (p ++ "/" ++ r) = None.
Proof.
  revert p. induction q as [| a q IH]; intros p Hq Hp N.
  - destruct p as [| c p]; [contradiction |].
    apply no_slash_cons in Hp. destruct Hp as [Hc _]. cbn [strip_prefix append].
    destruct (Ascii.eqb_spec "/"%char c) as [E | _]; [| reflexivity].
    subst c. contradiction.
  - apply no_slash_cons in Hq. destruct Hq as [Ha Hq].
    destruct p as [| c p]; cbn [strip_prefix append].
    + destruct (Ascii.eqb_spec a "/"%char) as [E | _]; [contradiction | reflexivity].
    + destruct (Ascii.eqb_spec a c) as [E | _]; [| reflexivity].
      subst c. apply no_slash_cons in Hp. destruct Hp as [_ Hp].
      apply IH; [exact Hq | exact Hp |]. intros E. apply N. rewrite E. reflexivity.
Qed.

Lemma getTenantId_skip_segment (p rest : string) :
  no_slash p = true ->
  TenantUtils_getTenantIdFromResourceName (p ++ rest)
  = TenantUtils_getTenantIdFromResourceName rest.
Proof.
  induction p as [| c p IH]; intros H.
  - reflexivity.
  - apply no_slash_cons in H. destruct H as [Hc Hp].
    change (String c p ++ rest) with (String c (p ++ rest)).
    rewrite getTenantId_step; [apply IH; exact Hp |].
    unfold tenants_match_here. cbn [strip_prefix append].
    destruct (Ascii.eqb_spec "/"%char c) as [E | _]; [| reflexivity].
    subst c. contradiction.
Qed.

(** X23. Round trip on resource names: for a project id without slash,
    other than [tenants], and a tenant id without line break,
    [getTenantIdFromResourceName] applied to
    [projects/<project>/tenants/<tenant>] returns the tenant id. *)
Theorem getTenantId_round_trip :
  forall (project tenantId : string),
    no_slash project = true ->
    project <> "tenants" ->
    single_line tenantId = true ->
    TenantUtils_getTenantIdFromResourceName
      ("projects/" ++ project ++ "/tenants/" ++ tenantId)
    = Some tenantId.
Proof.
  intros project tenantId Hslash Hname Hline.
  change ("projects/" ++ project ++ "/tenants/" ++ tenantId)
    with ("projects" ++ String "/" (project ++ "/tenants/" ++ tenantId)).
  rewrite getTenantId_skip_segment by reflexivity.
  rewrite getTenantId_step.
  - rewrite getTenantId_skip_segment by exact Hslash.
    assert (M : tenants_match_here ("/tenants/" ++ tenantId) = Some tenantId).
    { unfold tenants_match_here.
      rewrite (proj2 (strip_prefix_app "/tenants/" ("/tenants/" ++ tenantId) tenantId)
                     eq_refl).
      rewrite Hline. reflexivity. }
    apply getTenantId_here. exact M.
  - unfold tenants_match_here.
    change (strip_prefix "/tenants/" (String "/" (project ++ "/tenants/" ++ tenantId)))
      with (strip_prefix ("tenants" ++ "/") (project ++ "/" ++ ("tenants/" ++ tenantId))).
    rewrite (strip_segment_mismatch "tenants" project _ eq_refl Hslash Hname).
    reflexivity.
Qed.

Lemma getTenantId_round_trip_witness :
  TenantUtils_getTenantIdFromResourceName "projects/project1/tenants/tenant1"
  = Some "tenant1".
Proof.
  apply (getTenantId_round_trip "project1" "tenant1").
  - reflexivity.
  - discriminate.
  - reflexivity.
Defined.

(** The project id [tenants] is the exception of the round trip: the
    leftmost [/tenants/] is then the one that ends the project segment. *)
Example getTenantId_project_named_tenants :
  TenantUtils_getTenantIdFromResourceName "projects/tenants/tenants/tenant1"
  = Some "tenants/tenant1".
Proof. reflexivity. Qed.

(* ===================================================================== *)
(** ** Batch lookup when provider links are unique *)
(* ===================================================================== *)

(** X24. When no returned account has two provider entries with the same
    provider id, [getUsers] reports as not found exactly the requested
    identifiers that no returned account matches in the plain sense: uid,
    email or phone number equal, or some provider entry equal in both
    provider id and provider uid. *)
Theorem getUsers_notFound_with_unique_links :
  forall UR (this : BaseAuthImpl.t) (identifiers : list UserIdentifier)
         (response : GetAccountInfoByIdentifiersResponse)
         (accounts : list UserRecord) (t t' : Trace),
    AbstractAuthRequestHandler.getAccountInfoByIdentifiers
      (BaseAuthImpl.authRequestHandler this) identifiers t = (Fulfilled response, t') ->
    Forall2 (fun raw account => UR raw = Fulfilled account)
            (match batch_users response with Some raws => raws | None => [] end)
            accounts ->
    (forall account, In account accounts ->
                     NoDup (map info_providerId (providerData account))) ->
    BaseAuthImpl.getUsers UR this (an_array identifiers) t
      = (Fulfilled (mkGetUsersResult accounts
                      (filter (fun id => negb (existsb (specMatches id) accounts))
                              identifiers)), t').
Proof.
  intros UR this identifiers response accounts t t' Hcall Hconv Hunique.
  unfold BaseAuthImpl.getUsers. rewrite (then_fulfilled _ _ _ _ _ Hcall).
  apply map_or_throw_Forall2 in Hconv.
  assert (Hrun : match batch_users response with
                 | Some us => map_or_throw UR us
                 | None => Fulfilled []
                 end = Fulfilled accounts).
  { destruct (batch_users response); [exact Hconv |].
    simpl in Hconv. exact Hconv. }
  rewrite Hrun. unfold then_, settle, resolve. do 3 f_equal.
  apply filter_ext. intros id. f_equal. unfold BaseAuthImpl.isUserFound.
  clear Hrun Hconv Hcall. induction accounts as [| a accounts IH]; simpl.
  - reflexivity.
  - rewrite identifies_specMatches by (apply Hunique; left; reflexivity).
    f_equal. apply IH. intros account Hin. apply Hunique. right. exact Hin.
Qed.

Lemma getUsers_notFound_with_unique_links_witness :
  BaseAuthImpl.getUsers Example.UserRecord_new Sample.uniqueAuth
    (an_array [ ProviderIdentifier "google.com" "g-1"; ProviderIdentifier "google.com" "g-9";
                EmailIdentifier "alice@example.com" ]) []
  = (Fulfilled (mkGetUsersResult Sample.uniqueRecords
                  [ ProviderIdentifier "google.com" "g-9" ]),
     [ GetAccountsByIdentifiers
         [ ProviderIdentifier "google.com" "g-1"; ProviderIdentifier "google.com" "g-9";
           EmailIdentifier "alice@example.com" ] ]).
Proof.
  apply (getUsers_notFound_with_unique_links Example.UserRecord_new Sample.uniqueAuth
           [ ProviderIdentifier "google.com" "g-1"; ProviderIdentifier "google.com" "g-9";
             EmailIdentifier "alice@example.com" ]
           (mkGetAccountInfoByIdentifiersResponse (Some [Example.alice; Sample.erin]))
           Sample.uniqueRecords [] _ eq_refl).
  - repeat constructor.
  - intros account [<- | [<- | []]]; simpl; repeat constructor.
    + intros [H | []]. discriminate H.
    + intros [].
Defined.
